(** * The request facade of [dataset/request/request.py]

    A shallow embedding of the [Request] wrapper (adapted from Django REST
    framework) and of the helpers around it: [is_form_media_type],
    [clone_request], [override_method], [wrap_attributeerrors],
    [ForcedAuthentication].

    How the Python is rendered:
    - the facade is a record [Request]; the wrapped Django request is the
      record [HttpRequest.t] held in its field [_request];
    - a method is a function [Request -> outcome]: it returns either a value or
      a raised exception, the facade as the method left it (assignments made
      before a [raise] stay), and the calls it made to the pluggable
      collaborators (authenticators, negotiator, parsers), in order;
    - a cache that starts as the [Empty] placeholder is a [slot]; reading it
      gives the cached object, or the placeholder class itself;
      an instance attribute that may be missing ([hasattr]) is an [option];
    - what the module imports but does not define is a parameter of the
      development: the builtin [int], Django's [parse_header_parameters] and
      [settings.DEFAULT_CHARSET], the [api_settings] entries, and the
      [copy]/[update] methods of whatever object a parser returned;
    - the [icontract] decorators declare the contracts of the class: the
      invariants and postconditions are boolean predicates on the facade
      ([inv_authenticator], [inv_data], [inv_stream], [inv_encoding],
      [post__load_stream], [post__load_data_and_files]). A definition that
      carries a member's name ([user], [user_setter], [data], ...) is the
      function under the decorators: what the member does while a checked
      member of the same instance is running, where the library suspends
      the checks of the members called inside it. [checked] is the wrapper
      the library puts around every public method and property: the
      invariants are evaluated before and after the outermost call. A read
      or an assignment made by a caller of the facade is [checked user],
      [checked (user_setter v)]. The library does not wrap the private
      methods; inside one that is called on its own, a public member it
      goes through is an outermost call again, which
      [_authenticate_direct] spells out for [_authenticate];
    - a collaborator (parser, authenticator, negotiator) is a function of
      what it is handed that reads the wrapped request only: it does not
      call back into the facade, and the objects it returns are ordinary
      values, never the placeholder class [Empty] itself. *)

From Stdlib Require Import ZArith Ascii String.
From stdpp Require Import base option strings list gmap.

Local Open Scope string_scope.

(** ** Python values *)

(** The objects that flow through the facade: streams, parsed payloads,
    users, tokens. [Dict], [QueryDict] and [MultiValueDict] are the three
    mapping classes the source builds itself; [TheRequest] is the wrapped
    request used as a stream and [BytesIO] a buffer over a payload;
    [EmptyClass] is the placeholder class [Empty] when it is read as an
    object; anything else a collaborator hands over is an [Object] with an
    identity and the truth value Python gives it. *)
Inductive value : Type :=
  | None_
  | EmptyClass
  | Str (s : string)
  | Dict (items : list (string * string))
  | QueryDict (items : list (string * list string)) (encoding : string)
  | MultiValueDict (items : list (string * list string))
  | TheRequest
  | BytesIO (payload : string)
  | Object (id : nat) (truth : bool).

(** [x is None] *)
Definition is_None (v : value) : bool :=
  match v with None_ => true | _ => false end.

(** [bool(x)] *)
Definition truthy (v : value) : bool :=
  match v with
  | None_ => false
  | Str s => negb (String.eqb s "")
  | Dict items => negb (bool_decide (items = []))
  | QueryDict items _ => negb (bool_decide (items = []))
  | MultiValueDict items => negb (bool_decide (items = []))
  | EmptyClass | TheRequest | BytesIO _ => true
  | Object _ t => t
  end.


(** [a or b] on strings, as in [request.encoding or settings.DEFAULT_CHARSET]. *)
Definition or_default (a : option string) (b : string) : string :=
  match a with
  | Some s => if String.eqb s "" then b else s
  | None => b
  end.

(** ** Exceptions *)

(** The exception classes the module names or that Django REST framework
    raises around it, and [OtherException] for any further subclass of
    [Exception] a collaborator may raise. *)
Inductive exn : Type :=
  | RawPostDataException
  | APIException (detail : string)
  | UnsupportedMediaType (media_type : string)
  | ParseError (detail : string)
  | AttributeError (msg : string)
  | WrappedAttributeError (msg : string)
  | TypeError (msg : string)
  | OtherException (name : string).

Inductive result (A : Type) : Type :=
  | Ok (a : A)
  | Raise (e : exn).
Arguments Ok {A} a.
Arguments Raise {A} e.

(** A cache that starts as the [Empty] placeholder. *)
Inductive slot (A : Type) : Type :=
  | Empty
  | Loaded (a : A).
Arguments Empty {A}.
Arguments Loaded {A} a.

(** [_hasattr(obj, name)]: [not getattr(obj, name) is Empty]. A loaded slot
    holds an object a collaborator returned, which is taken not to be the
    class [Empty] itself. *)
Definition _hasattr {A} (s : slot A) : bool :=
  match s with Empty => false | Loaded _ => true end.

(** [self._x] read as an object. *)
Definition of_slot (s : slot value) : value :=
  match s with Empty => EmptyClass | Loaded v => v end.

(** ** The wrapped request *)

Module HttpRequest.

(** Django's [HttpRequest], as far as the facade touches it. [META] maps
    header names to strings. [_post] and [_files] are assigned together by
    Django and by the facade, so one optional pair stands for both
    attributes ([None]: the attributes do not exist yet). [_body] is the
    buffered payload, if it was buffered. [_force_auth_user] and
    [_force_auth_token] read [None_] when the attribute is missing, which is
    what [getattr(request, name, None)] gives. *)
Record t : Type := mk {
  META : gmap string string;
  _encoding : option string;
  _read_started : bool;
  _body : option string;
  wire : string;
  method : string;
  user : option value;
  auth : option value;
  _post_files : option (value * value);
  _force_auth_user : value;
  _force_auth_token : value;
}.

(** The [encoding] property. *)
Definition encoding (rq : t) : option string := _encoding rq.

(** The [body] property: the buffered payload; once the stream was read
    without buffering, [RawPostDataException]; otherwise the payload still
    on the wire (the facade asks for [body] only after [_read_started]). *)
Definition body (rq : t) : result string :=
  match _body rq with
  | Some b => Ok b
  | None => if _read_started rq then Raise RawPostDataException
            else Ok (wire rq)
  end.

Definition set_user (v : value) (rq : t) : t :=
  mk (META rq) (_encoding rq) (_read_started rq) (_body rq) (wire rq)
     (method rq) (Some v) (auth rq) (_post_files rq)
     (_force_auth_user rq) (_force_auth_token rq).

Definition set_auth (v : value) (rq : t) : t :=
  mk (META rq) (_encoding rq) (_read_started rq) (_body rq) (wire rq)
     (method rq) (user rq) (Some v) (_post_files rq)
     (_force_auth_user rq) (_force_auth_token rq).

Definition set_post_files (post files : value) (rq : t) : t :=
  mk (META rq) (_encoding rq) (_read_started rq) (_body rq) (wire rq)
     (method rq) (user rq) (auth rq) (Some (post, files))
     (_force_auth_user rq) (_force_auth_token rq).

End HttpRequest.

(** ** Pluggable collaborators *)

(** What a parser returns: a [DataAndFiles] object or the bare data. *)
Inductive Parsed : Type :=
  | DataAndFiles (data files : value)
  | RawData (data : value).

(** The [parser_context] dictionary as a parser receives it: the ['request']
    entry is the facade, seen through its attribute passthrough to the wrapped
    request; the string entries, ['encoding'] among them, are [ctx_entries]. *)
Record ParserContext : Type := {
  ctx_request : HttpRequest.t;
  ctx_entries : gmap string string;
}.

(** A parser: the media type it declares and its decode step
    [parse(stream, media_type, parser_context)]. *)
Record Parser : Type := {
  parser_name : string;
  media_type : string;
  parse : value -> string -> ParserContext -> result Parsed;
}.

(** An authenticator: the [ForcedAuthentication] class of the module, or a
    configured one, known by its [authenticate] method. The method receives
    the facade; the configured authenticators of the development read the
    wrapped request there, through the attribute passthrough, and stop at
    that: one that read [request.data] or assigned to the facade from
    inside [authenticate] is outside what [run] can express. *)
Inductive Authenticator : Type :=
  | ForcedAuthentication (force_user force_token : value)
  | Configured (name : string)
      (run : HttpRequest.t -> result (option (value * value))).

(** [authenticator.authenticate(request)] *)
Definition authenticate (a : Authenticator) (request : HttpRequest.t)
  : result (option (value * value)) :=
  match a with
  | ForcedAuthentication force_user force_token =>
      Ok (Some (force_user, force_token))
  | Configured _ run => run request
  end.

(** A negotiator: [select_parser(request, parsers)] gives a parser or
    [None]; like an authenticator it reads the facade through the wrapped
    request and does not call back into it. *)
Record Negotiator : Type := {
  select_parser : HttpRequest.t -> list Parser -> option Parser;
}.

(** The calls a method makes to its collaborators. *)
Inductive Call : Type :=
  | CallAuthenticate (a : Authenticator)
  | CallSelectParser (parsers : list Parser)
  | CallParse (p : Parser) (stream : value) (media_type : string).

(** ** The facade *)

(** The instance attributes of [Request]. [method], [accepted_renderer],
    [accepted_media_type], [version] and [versioning_scheme] are attributes
    that [clone_request] copies or sets; [method] left unset reads through to
    the wrapped request. The ['request'] entry of [parser_context] is the
    facade itself and is supplied when the context is handed to a parser;
    [parser_context] holds the string entries. *)
Record Request : Type := mkRequest {
  _request : HttpRequest.t;
  parsers : list Parser;
  authenticators : list Authenticator;
  negotiator : Negotiator;
  parser_context : gmap string string;
  _data : slot value;
  _files : slot value;
  _full_data : slot value;
  _content_type : slot value;
  _stream : slot value;
  _user : option value;
  _auth : option value;
  _authenticator : option (option Authenticator);
  method : option string;
  accepted_renderer : option value;
  accepted_media_type : option value;
  version : option value;
  versioning_scheme : option value;
}.

(** Attribute assignment, [self._x = value]. *)
Definition set_request (x : HttpRequest.t) (r : Request) : Request :=
  mkRequest x (parsers r) (authenticators r) (negotiator r)
    (parser_context r) (_data r) (_files r) (_full_data r) (_content_type r)
    (_stream r) (_user r) (_auth r) (_authenticator r) (method r)
    (accepted_renderer r) (accepted_media_type r) (version r)
    (versioning_scheme r).

Definition set_data (x : slot value) (r : Request) : Request :=
  mkRequest (_request r) (parsers r) (authenticators r) (negotiator r)
    (parser_context r) x (_files r) (_full_data r) (_content_type r)
    (_stream r) (_user r) (_auth r) (_authenticator r) (method r)
    (accepted_renderer r) (accepted_media_type r) (version r)
    (versioning_scheme r).

Definition set_files (x : slot value) (r : Request) : Request :=
  mkRequest (_request r) (parsers r) (authenticators r) (negotiator r)
    (parser_context r) (_data r) x (_full_data r) (_content_type r)
    (_stream r) (_user r) (_auth r) (_authenticator r) (method r)
    (accepted_renderer r) (accepted_media_type r) (version r)
    (versioning_scheme r).

Definition set_full_data (x : slot value) (r : Request) : Request :=
  mkRequest (_request r) (parsers r) (authenticators r) (negotiator r)
    (parser_context r) (_data r) (_files r) x (_content_type r)
    (_stream r) (_user r) (_auth r) (_authenticator r) (method r)
    (accepted_renderer r) (accepted_media_type r) (version r)
    (versioning_scheme r).

Definition set_stream (x : slot value) (r : Request) : Request :=
  mkRequest (_request r) (parsers r) (authenticators r) (negotiator r)
    (parser_context r) (_data r) (_files r) (_full_data r) (_content_type r)
    x (_user r) (_auth r) (_authenticator r) (method r)
    (accepted_renderer r) (accepted_media_type r) (version r)
    (versioning_scheme r).

Definition set_user (x : value) (r : Request) : Request :=
  mkRequest (_request r) (parsers r) (authenticators r) (negotiator r)
    (parser_context r) (_data r) (_files r) (_full_data r) (_content_type r)
    (_stream r) (Some x) (_auth r) (_authenticator r) (method r)
    (accepted_renderer r) (accepted_media_type r) (version r)
    (versioning_scheme r).

Definition set_auth (x : value) (r : Request) : Request :=
  mkRequest (_request r) (parsers r) (authenticators r) (negotiator r)
    (parser_context r) (_data r) (_files r) (_full_data r) (_content_type r)
    (_stream r) (_user r) (Some x) (_authenticator r) (method r)
    (accepted_renderer r) (accepted_media_type r) (version r)
    (versioning_scheme r).

Definition set_authenticator (x : option Authenticator) (r : Request) : Request :=
  mkRequest (_request r) (parsers r) (authenticators r) (negotiator r)
    (parser_context r) (_data r) (_files r) (_full_data r) (_content_type r)
    (_stream r) (_user r) (_auth r) (Some x) (method r)
    (accepted_renderer r) (accepted_media_type r) (version r)
    (versioning_scheme r).

(** ** Methods as state transformers *)

(** What running a method gives: the value returned or the exception raised,
    the facade afterwards, and the collaborator calls made on the way. *)
Record outcome (A : Type) : Type := Out {
  returned : result A;
  final : Request;
  calls : list Call;
}.
Arguments Out {A} returned final calls.
Arguments returned {A} o.
Arguments final {A} o.
Arguments calls {A} o.

Definition M (A : Type) : Type := Request -> outcome A.

Definition ret {A} (a : A) : M A := fun self => Out (Ok a) self [].

Definition raise {A} (e : exn) : M A := fun self => Out (Raise e) self [].

Definition bind {A B} (m : M A) (f : A -> M B) : M B :=
  fun self =>
    match m self with
    | Out (Ok a) self' c =>
        match f a self' with
        | Out r self'' c' => Out r self'' (c ++ c')
        end
    | Out (Raise e) self' c => Out (Raise e) self' c
    end.

Definition get {A} (f : Request -> A) : M A := fun self => Out (Ok (f self)) self [].

Definition modify (f : Request -> Request) : M unit :=
  fun self => Out (Ok tt) (f self) [].

Definition call {A} (c : Call) (r : result A) : M A :=
  fun self => Out r self [c].

Declare Scope py_scope.
Delimit Scope py_scope with py.
Notation "x <- m ;; k" := (bind m (fun x => k))
  (at level 100, m at next level, right associativity, only parsing) : py_scope.
Notation "m ;; k" := (bind m (fun _ => k))
  (at level 100, right associativity, only parsing) : py_scope.
Local Open Scope py_scope.

(** Running the sequencing combinators in a proof. *)
Ltac run := unfold bind, ret, raise, get, modify, call; simpl.

(** Splitting a conjunction of case facts and closing the routine parts. *)
Ltac settle :=
  repeat split; intros;
  repeat match goal with
         | H : exists _, _ |- _ => destruct H
         | H : _ /\ _ |- _ => destruct H
         end;
  try discriminate; try congruence; try tauto; eauto.

(** [with wrap_attributeerrors(): body] *)
Definition wrap_attributeerrors {A} (body : M A) : M A :=
  fun self =>
    match body self with
    | Out (Raise (AttributeError msg)) self' c =>
        Out (Raise (WrappedAttributeError msg)) self' c
    | o => o
    end.

(** ** What the module imports *)

(** The entries of [api_settings] the facade reads. A factory that is not
    configured is [None]; a configured one is called without arguments. *)
Record APISettings : Type := {
  UNAUTHENTICATED_USER : option (unit -> value);
  UNAUTHENTICATED_TOKEN : option (unit -> value);
  DEFAULT_CONTENT_NEGOTIATION_CLASS : unit -> Negotiator;
}.

(** ** A concrete host

    One instance of everything the facade takes from outside, for running it
    on concrete requests. *)
Module Host.

(** [int] on an ASCII decimal literal: optional sign, then digits;
    anything else is [ValueError]. *)
Definition digit (a : ascii) : option Z :=
  let n := Z.of_nat (nat_of_ascii a) in
  if ((48 <=? n) && (n <=? 57))%Z then Some (n - 48)%Z else None.

Fixpoint digits (acc : Z) (s : string) : option Z :=
  match s with
  | EmptyString => Some acc
  | String a s' =>
      match digit a with
      | Some d => digits (10 * acc + d) s'
      | None => None
      end
  end.

Definition int (s : string) : option Z :=
  match s with
  | EmptyString => None
  | String "-" (String a s') => Z.opp <$> digits 0 (String a s')
  | String "+" (String a s') => digits 0 (String a s')
  | String a s' => digits 0 (String a s')
  end.

(** [parse_header_parameters] on a header without quoted parameters: the
    text before the first [;], lower-cased, is the base media type. *)
Definition lower (a : ascii) : ascii :=
  let n := nat_of_ascii a in
  if (65 <=? n)%nat && (n <=? 90)%nat then ascii_of_nat (n + 32) else a.

Fixpoint base_media_type (s : string) : string :=
  match s with
  | EmptyString => EmptyString
  | String ";" _ => EmptyString
  | String a s' => String (lower a) (base_media_type s')
  end.

Definition parse_header_parameters (line : string)
  : string * list (string * string) :=
  (base_media_type line, []).

Definition DEFAULT_CHARSET : string := "utf-8".

(** The API exceptions of Django REST framework: [APIException] and its
    subclasses. *)
Definition is_APIException (e : exn) : bool :=
  match e with
  | APIException _ | UnsupportedMediaType _ | ParseError _ => true
  | _ => false
  end.

(** Content negotiation by exact base media type: the first parser that
    declares the media type of the request. *)
Definition declared_type (rq : HttpRequest.t) : string :=
  default (default "" (HttpRequest.META rq !! "HTTP_CONTENT_TYPE"))
    (HttpRequest.META rq !! "CONTENT_TYPE").

Definition negotiation : Negotiator :=
  {| select_parser rq parsers :=
       List.find (fun p =>
         String.eqb (media_type p) (base_media_type (declared_type rq)))
         parsers |}.

Definition AnonymousUser : value := Object 0 true.

Definition api_settings : APISettings :=
  {| UNAUTHENTICATED_USER := Some (fun _ => AnonymousUser);
     UNAUTHENTICATED_TOKEN := None;
     DEFAULT_CONTENT_NEGOTIATION_CLASS := fun _ => negotiation |}.

(** Merging files into a copy of the data: keys of the files are appended. *)
Definition copy_update (data files : value) : value :=
  match data, files with
  | QueryDict items enc, MultiValueDict fs => QueryDict (items ++ fs) enc
  | MultiValueDict items, MultiValueDict fs => MultiValueDict (items ++ fs)
  | _, _ => data
  end.

(** What a parser reads from a stream. *)
Definition read (stream : value) (ctx : ParserContext) : string :=
  match stream with
  | BytesIO payload => payload
  | TheRequest => HttpRequest.wire (ctx_request ctx)
  | _ => ""
  end.

(** A parser for [k=v&k=v] payloads. *)
Fixpoint split_on (sep : ascii) (cur : string) (s : string) : list string :=
  match s with
  | EmptyString => [String.rev cur]
  | String a s' =>
      if Ascii.eqb a sep then String.rev cur :: split_on sep EmptyString s'
      else split_on sep (String a cur) s'
  end.

Definition pair_of (field : string) : string * list string :=
  match split_on "=" EmptyString field with
  | k :: v :: _ => (k, [v])
  | k :: [] => (k, [""])
  | [] => ("", [""])
  end.

Definition FormParser : Parser :=
  {| parser_name := "FormParser";
     media_type := "application/x-www-form-urlencoded";
     parse stream media_type ctx :=
       Ok (DataAndFiles
             (QueryDict (pair_of <$> split_on "&" EmptyString (read stream ctx))
                (default DEFAULT_CHARSET (ctx_entries ctx !! "encoding")))
             (MultiValueDict [])) |}.

(** A parser that hands back the payload as one object, without files. *)
Definition JSONParser : Parser :=
  {| parser_name := "JSONParser";
     media_type := "application/json";
     parse stream media_type ctx := Ok (RawData (Str (read stream ctx))) |}.

(** A parser whose decode step fails. *)
Definition BrokenParser : Parser :=
  {| parser_name := "BrokenParser";
     media_type := "application/json";
     parse stream media_type ctx := Raise (ParseError "Malformed request.") |}.

(** Authenticators: one that accepts a bearer header, one that passes, one
    that fails with an API exception. *)
Definition alice : value := Object 1 true.

Definition TokenAuthentication : Authenticator :=
  Configured "TokenAuthentication" (fun rq =>
    match HttpRequest.META rq !! "HTTP_AUTHORIZATION" with
    | Some token => Ok (Some (alice, Str token))
    | None => Ok None
    end).

Definition SessionAuthentication : Authenticator :=
  Configured "SessionAuthentication" (fun _ => Ok None).

Definition FailingAuthentication : Authenticator :=
  Configured "FailingAuthentication" (fun _ =>
    Raise (APIException "Incorrect authentication credentials.")).

(** A wrapped request with the given headers and payload, nothing read yet. *)
Definition request (meta : list (string * string)) (payload : string)
  : HttpRequest.t :=
  HttpRequest.mk (list_to_map meta) None false None payload "POST"
    None None None None_ None_.

(** The same after Django's own form parsing drained the stream: the parsed
    form is cached and the payload was not buffered. *)
Definition drained (meta : list (string * string)) (post files : value)
  : HttpRequest.t :=
  HttpRequest.mk (list_to_map meta) None true None "" "POST"
    None None (Some (post, files)) None_ None_.

(** A request the test client forcibly authenticated. *)
Definition forced (force_user force_token : value) : HttpRequest.t :=
  HttpRequest.mk ∅ None false None "" "GET"
    None None None force_user force_token.

End Host.

(** ** The facade's methods *)

Section Facade.

(** The builtin [int] on a header value; [None] is [ValueError]. *)
Variable int : string -> option Z.
(** [django.utils.http.parse_header_parameters] *)
Variable parse_header_parameters : string -> string * list (string * string).
(** [settings.DEFAULT_CHARSET] *)
Variable DEFAULT_CHARSET : string.
Variable api_settings : APISettings.
(** [isinstance(e, exceptions.APIException)] *)
Variable is_APIException : exn -> bool.
(** [d = data.copy(); d.update(files); d], by the methods of the object the
    parser returned as data. The data objects of the development have both
    methods, as the mappings of Django and of the framework's parsers do;
    a data object without [copy] or [update] next to truthy files makes
    lines 357-359 raise after [_data] was assigned, a run this parameter
    does not describe. *)
Variable copy_update : value -> value -> value.

(** [QueryDict('', encoding=encoding)]: no items; Django's constructor stores
    [encoding or settings.DEFAULT_CHARSET]. *)
Definition empty_QueryDict (encoding : option string) : value :=
  QueryDict [] (or_default encoding DEFAULT_CHARSET).

Definition is_form_media_type (media_type : string) : bool :=
  let '(base_media_type, params) := parse_header_parameters media_type in
  String.eqb base_media_type "application/x-www-form-urlencoded"
  || String.eqb base_media_type "multipart/form-data".

(** *** Construction *)

Definition _default_negotiator : Negotiator :=
  DEFAULT_CONTENT_NEGOTIATION_CLASS api_settings tt.

(** [Request.__init__(self, request, parsers=None, authenticators=None)] *)
Definition __init__ (request : HttpRequest.t)
    (parsers : option (list Parser))
    (authenticators : option (list Authenticator)) : Request :=
  let force_user := HttpRequest._force_auth_user request in
  let force_token := HttpRequest._force_auth_token request in
  mkRequest request
    (default [] parsers)
    (if negb (is_None force_user) || negb (is_None force_token)
     then [ForcedAuthentication force_user force_token]
     else default [] authenticators)
    _default_negotiator
    (<["encoding" := or_default (HttpRequest.encoding request) DEFAULT_CHARSET]> ∅)
    Empty Empty Empty Empty Empty
    None None None
    None None None None None.

(** The parameters [Request.__init__] declares besides [self]. *)
Definition __init___parameters : list string :=
  ["request"; "parsers"; "authenticators"].

(** Binding a call's keyword arguments: the first keyword that is not a
    parameter makes the call raise [TypeError]. *)
Definition unexpected_keyword (parameters keywords : list string)
  : option string :=
  List.find (fun k => negb (bool_decide (k ∈ parameters))) keywords.

(** [clone_request(request, method)]. The constructor call passes [request],
    [parsers], [authenticators], [negotiator] and [parser_context] by
    keyword. *)
Definition clone_request (request : Request) (method_ : string)
  : result Request :=
  match unexpected_keyword __init___parameters
          ["request"; "parsers"; "authenticators"; "negotiator";
           "parser_context"] with
  | Some k =>
      Raise (TypeError
        ("Request.__init__() got an unexpected keyword argument '"
         +:+ k +:+ "'"))
  | None =>
      let new := __init__ (_request request) (Some (parsers request))
                   (Some (authenticators request)) in
      Ok (mkRequest (_request new) (parsers new) (authenticators new)
            (negotiator request) (parser_context request)
            (_data request) (_files request) (_full_data request)
            (_content_type request) (_stream request)
            (_user request) (_auth request) (_authenticator request)
            (Some method_)
            (accepted_renderer request) (accepted_media_type request)
            (version request) (versioning_scheme request))
  end.

(** *** Properties and loaders *)

(** The [content_type] property. *)
Definition content_type (self : Request) : string :=
  let meta := HttpRequest.META (_request self) in
  default (default "" (meta !! "HTTP_CONTENT_TYPE")) (meta !! "CONTENT_TYPE").

(** [int(meta.get('CONTENT_LENGTH', meta.get('HTTP_CONTENT_LENGTH', 0)))],
    with [ValueError] and [TypeError] giving 0. *)
Definition content_length (meta : gmap string string) : Z :=
  match meta !! "CONTENT_LENGTH" with
  | Some v => default 0%Z (int v)
  | None =>
      match meta !! "HTTP_CONTENT_LENGTH" with
      | Some v => default 0%Z (int v)
      | None => 0%Z
      end
  end.

(** [self.body] is not an attribute of the facade: [__getattr__] forwards it
    to the wrapped request, whose exception (not an [AttributeError]) passes
    through. *)
Definition _load_stream : M unit :=
  fun self =>
    let meta := HttpRequest.META (_request self) in
    if (content_length meta =? 0)%Z then
      modify (set_stream (Loaded None_)) self
    else if negb (HttpRequest._read_started (_request self)) then
      modify (set_stream (Loaded TheRequest)) self
    else
      match HttpRequest.body (_request self) with
      | Ok b => modify (set_stream (Loaded (BytesIO b))) self
      | Raise e => raise e self
      end.

(** The [stream] property. *)
Definition stream : M value :=
  fun self =>
    if negb (_hasattr (_stream self))
    then (_load_stream ;; get (fun self => of_slot (_stream self))) self
    else get (fun self => of_slot (_stream self)) self.

Definition _supports_form_parsing (self : Request) : bool :=
  let form_media :=
    ["application/x-www-form-urlencoded"; "multipart/form-data"] in
  existsb (fun parser => bool_decide (media_type parser ∈ form_media))
    (parsers self).

(** The context handed to a parser. *)
Definition context_for (self : Request) : ParserContext :=
  {| ctx_request := _request self; ctx_entries := parser_context self |}.

(** [_parse] from the line [if stream is None or media_type is None] on.
    [media_type] is a string here, so the second test never holds. *)
Definition _parse_stream (media_type : string) (stream : value)
  : M (value * value) :=
  fun self =>
    if is_None stream then
      let empty_data :=
        if negb (String.eqb media_type "") && is_form_media_type media_type
        then empty_QueryDict (HttpRequest._encoding (_request self))
        else Dict [] in
      let empty_files := MultiValueDict [] in
      ret (empty_data, empty_files) self
    else
      let selecting := CallSelectParser (parsers self) in
      match select_parser (negotiator self) (_request self) (parsers self) with
      | None =>
          (call selecting (Ok tt) ;;
           raise (UnsupportedMediaType media_type)) self
      | Some parser =>
          let parsing := CallParse parser stream media_type in
          match parse parser stream media_type (context_for self) with
          | Raise e =>
              (call selecting (Ok tt) ;;
               call parsing (Ok tt) ;;
               modify (fun self =>
                 set_data
                   (Loaded (empty_QueryDict
                              (HttpRequest._encoding (_request self)))) self) ;;
               modify (set_files (Loaded (MultiValueDict []))) ;;
               modify (fun self => set_full_data (_data self) self) ;;
               raise e) self
          | Ok (DataAndFiles data files) =>
              (call selecting (Ok tt) ;;
               call parsing (Ok (data, files))) self
          | Ok (RawData data) =>
              (call selecting (Ok tt) ;;
               call parsing (Ok (data, MultiValueDict []))) self
          end
      end.

Definition _parse : M (value * value) :=
  fun self =>
    let media_type := content_type self in
    match stream self with
    | Out (Ok stream) self' c =>
        match _parse_stream media_type stream self' with
        | Out r self'' c' => Out r self'' (c ++ c')
        end
    | Out (Raise RawPostDataException) self' c =>
        match HttpRequest._post_files (_request self') with
        | None => Out (Raise RawPostDataException) self' c
        | Some (post, files) =>
            if _supports_form_parsing self'
            then Out (Ok (post, files)) self' c
            else
              match _parse_stream media_type None_ self' with
              | Out r self'' c' => Out r self'' (c ++ c')
              end
        end
    | Out (Raise e) self' c => Out (Raise e) self' c
    end.

(** The [POST] and [FILES] properties past their loading guard, which is how
    [_load_data_and_files] enters them: [_data] and [_files] have just been
    assigned. *)
Definition POST_loaded (self : Request) : value :=
  if is_form_media_type (content_type self)
  then of_slot (_data self)
  else empty_QueryDict (HttpRequest._encoding (_request self)).

Definition FILES_loaded (self : Request) : value := of_slot (_files self).

Definition _load_data_and_files : M unit :=
  fun self =>
    if negb (_hasattr (_data self)) then
      (df <- _parse ;;
       modify (set_data (Loaded (fst df))) ;;
       modify (set_files (Loaded (snd df))) ;;
       (fun self =>
          if truthy (of_slot (_files self))
          then modify (set_full_data
                 (Loaded (copy_update (of_slot (_data self))
                                      (of_slot (_files self))))) self
          else modify (set_full_data (_data self)) self) ;;
       (fun self =>
          if is_form_media_type (content_type self)
          then modify (set_request
                 (HttpRequest.set_post_files (POST_loaded self)
                    (FILES_loaded self) (_request self))) self
          else ret tt self)) self
    else ret tt self.

(** The [data] property. *)
Definition data : M value :=
  fun self =>
    if negb (_hasattr (_full_data self))
    then (wrap_attributeerrors _load_data_and_files ;;
          get (fun self => of_slot (_full_data self))) self
    else get (fun self => of_slot (_full_data self)) self.

(** The [POST] property. *)
Definition POST : M value :=
  fun self =>
    if negb (_hasattr (_data self))
    then (wrap_attributeerrors _load_data_and_files ;; get POST_loaded) self
    else get POST_loaded self.

(** The [FILES] property. *)
Definition FILES : M value :=
  fun self =>
    if negb (_hasattr (_files self))
    then (wrap_attributeerrors _load_data_and_files ;; get FILES_loaded) self
    else get FILES_loaded self.

(** *** Authentication *)

(** The [user] and [auth] setters write through to the wrapped request.
    These are the bodies under the decorators, which is how [_authenticate]
    and [_not_authenticated] run them inside a checked property; an
    assignment [request.user = v] made from outside is
    [checked (user_setter v)]. *)
Definition user_setter (v : value) : M unit :=
  modify (set_user v) ;;
  modify (fun self =>
    set_request (HttpRequest.set_user v (_request self)) self).

Definition auth_setter (v : value) : M unit :=
  modify (set_auth v) ;;
  modify (fun self =>
    set_request (HttpRequest.set_auth v (_request self)) self).

Definition _not_authenticated : M unit :=
  modify (set_authenticator None) ;;
  match UNAUTHENTICATED_USER api_settings with
  | Some factory => user_setter (factory tt)
  | None => user_setter None_
  end ;;
  match UNAUTHENTICATED_TOKEN api_settings with
  | Some factory => auth_setter (factory tt)
  | None => auth_setter None_
  end.

(** The [for] loop of [_authenticate] over the authenticators still to try,
    followed by the statement after the loop. The two assignments are the
    setters' bodies: this is the loop as [user], [auth] and
    [successful_authenticator] run it, with the checks of the setters
    suspended. [_authenticate_from_direct] is the loop with the checks. *)
Fixpoint _authenticate_from (todo : list Authenticator) : M unit :=
  match todo with
  | [] => _not_authenticated
  | authenticator :: todo' =>
      fun self =>
        let calling := CallAuthenticate authenticator in
        match authenticate authenticator (_request self) with
        | Raise e =>
            if is_APIException e
            then (call calling (Ok tt) ;; _not_authenticated ;; raise e) self
            else call calling (Raise e) self
        | Ok (Some (user, auth)) =>
            (call calling (Ok tt) ;;
             modify (set_authenticator (Some authenticator)) ;;
             user_setter user ;;
             auth_setter auth) self
        | Ok None =>
            (call calling (Ok tt) ;; _authenticate_from todo') self
        end
  end.

Definition _authenticate : M unit :=
  fun self => _authenticate_from (authenticators self) self.

(** [return self._x] for an attribute that may be missing: the lookup falls
    to [__getattr__], and the wrapped request has no such attribute. *)
Definition attribute {A} (name : string) (x : option A) : M A :=
  match x with
  | Some v => ret v
  | None =>
      raise (AttributeError
        ("'Request' object has no attribute '" +:+ name +:+ "'"))
  end.

(** The [user] property, under the decorators; a read [request.user] from
    outside is [checked user]. *)
Definition user : M value :=
  fun self =>
    if negb (bool_decide (is_Some (_user self)))
    then (wrap_attributeerrors _authenticate ;;
          (fun self => attribute "_user" (_user self) self)) self
    else attribute "_user" (_user self) self.

(** The [auth] property, under the decorators. *)
Definition auth : M value :=
  fun self =>
    if negb (bool_decide (is_Some (_auth self)))
    then (wrap_attributeerrors _authenticate ;;
          (fun self => attribute "_auth" (_auth self) self)) self
    else attribute "_auth" (_auth self) self.

(** The [successful_authenticator] property, under the decorators. *)
Definition successful_authenticator : M (option Authenticator) :=
  fun self =>
    if negb (bool_decide (is_Some (_authenticator self)))
    then (wrap_attributeerrors _authenticate ;;
          (fun self =>
             attribute "_authenticator" (_authenticator self) self)) self
    else attribute "_authenticator" (_authenticator self) self.

(** *** Declared contracts *)

(** The class invariant "If an authenticator is set, then _user must be a
    truthy value":
    [not hasattr(self, "_authenticator") or (self._authenticator is None or
     (hasattr(self, "_user") and bool(self._user)))]. *)
Definition inv_authenticator (self : Request) : bool :=
  match _authenticator self with
  | None => true
  | Some None => true
  | Some (Some _) =>
      match _user self with
      | Some u => truthy u
      | None => false
      end
  end.

(** The same invariant in the words of the specification: once the
    successful authenticator is resolved the identity is set, and a non-null
    authenticator comes with a non-null identity. *)
Definition identity_follows_authenticator (self : Request) : bool :=
  match _authenticator self with
  | None => true
  | Some a =>
      match _user self with
      | None => false
      | Some u =>
          match a with
          | Some _ => negb (is_None u)
          | None => true
          end
      end
  end.

(** *** Conditions the specification names *)



(** "The declared media type is a form media type": one is declared, and it
    is URL-encoded or multipart. *)
Definition declares_form_media_type (self : Request) : bool :=
  negb (String.eqb (content_type self) "")
  && is_form_media_type (content_type self).

(** "The configured default anonymous-identity factory's result if one is
    configured, else None", and the same for the default token. *)
Definition unauthenticated_user : value :=
  match UNAUTHENTICATED_USER api_settings with
  | Some factory => factory tt
  | None => None_
  end.

Definition unauthenticated_token : value :=
  match UNAUTHENTICATED_TOKEN api_settings with
  | Some factory => factory tt
  | None => None_
  end.

(** *** The other declared contracts *)

(** "parser_context must contain a non-empty 'encoding' entry", the class
    invariant and the postcondition of [__init__]. *)
Definition inv_encoding (self : Request) : bool :=
  match parser_context self !! "encoding" with
  | Some e => negb (String.eqb e "")
  | None => false
  end.

(** "If _data has been loaded, then _full_data must also be set":
    [self._data is Empty or self._full_data is not Empty]. *)
Definition inv_data (self : Request) : bool :=
  negb (_hasattr (_data self)) || _hasattr (_full_data self).

(** [hasattr(x, "read")] for the objects the facade stores as a stream. *)
Definition has_read (v : value) : bool :=
  match v with
  | TheRequest | BytesIO _ => true
  | _ => false
  end.

(** [x is self._request] *)
Definition is_the_request (v : value) : bool :=
  match v with TheRequest => true | _ => false end.

(** The postcondition of [_load_stream]: [self._stream is None or
    self._stream == self._request or hasattr(self._stream, "read")]. *)
Definition post__load_stream (self : Request) : bool :=
  let s := of_slot (_stream self) in
  is_None s || is_the_request s || has_read s.

(** "_stream must be either not loaded, the original request, or a
    stream-like object", the class invariant. *)
Definition inv_stream (self : Request) : bool :=
  negb (_hasattr (_stream self)) || post__load_stream self.

(** The postconditions of [_load_data_and_files]: [_data] and [_full_data]
    are set. *)
Definition post__load_data_and_files (self : Request) : bool :=
  _hasattr (_data self) && _hasattr (_full_data self).

(** *** Run-time checking of the class invariants *)

(** What [icontract] raises when an invariant does not hold: a
    [ViolationError], or a [RuntimeError] ("Failed to recompute the values of
    the contract condition") when building the message of the violation has
    to read something that is not there. *)
Definition ViolationError : exn := OtherException "ViolationError".
Definition RuntimeError : exn := OtherException "RuntimeError".

(** The authenticator invariant, checked: with a non-null authenticator, a
    missing [_user] cannot be read back for the message, and a falsy [_user]
    is reported as a violation. *)
Definition authenticator_failure (self : Request) : option exn :=
  match _authenticator self with
  | Some (Some _) =>
      match _user self with
      | None => Some RuntimeError
      | Some u => if truthy u then None else Some ViolationError
      end
  | _ => None
  end.

(** The invariants on the data caches and on the stream, checked. *)
Definition cache_failure (self : Request) : option exn :=
  if negb (inv_data self) then Some ViolationError
  else if negb (inv_stream self) then Some ViolationError
  else None.

(** The invariant on the encoding, checked: a missing entry cannot be read
    back for the message. *)
Definition encoding_failure (self : Request) : option exn :=
  match parser_context self !! "encoding" with
  | None => Some RuntimeError
  | Some e => if String.eqb e "" then Some ViolationError else None
  end.

(** The invariants in the order [icontract] checks them, which is the order
    the decorators were applied in, from the one next to the class upwards:
    data, stream, authenticator, data again, encoding. The first one that
    fails raises. *)
Definition invariant_failure (self : Request) : option exn :=
  match cache_failure self with
  | Some e => Some e
  | None =>
      match authenticator_failure self with
      | Some e => Some e
      | None => encoding_failure self
      end
  end.

(** A public method or property as a caller outside the facade runs it:
    [icontract] checks the invariants, runs the method, and checks the
    invariants again if the method returned. While the method runs, the
    checks of the public members it calls on the same facade are suspended,
    so inside it those members run as their bare definitions above. *)
Definition checked {A} (method : M A) : M A :=
  fun self =>
    match invariant_failure self with
    | Some e => Out (Raise e) self []
    | None =>
        match method self with
        | Out (Ok a) self' c =>
            match invariant_failure self' with
            | Some e => Out (Raise e) self' c
            | None => Out (Ok a) self' c
            end
        | Out (Raise e) self' c => Out (Raise e) self' c
        end
    end.

(** [_not_authenticated] and [_authenticate] are private and not wrapped.
    Called on their own, outside any checked member, each assignment to
    [self.user] and [self.auth] in them is a checked call of the setter. *)
Definition _not_authenticated_direct : M unit :=
  modify (set_authenticator None) ;;
  match UNAUTHENTICATED_USER api_settings with
  | Some factory => checked (user_setter (factory tt))
  | None => checked (user_setter None_)
  end ;;
  match UNAUTHENTICATED_TOKEN api_settings with
  | Some factory => checked (auth_setter (factory tt))
  | None => checked (auth_setter None_)
  end.

Fixpoint _authenticate_from_direct (todo : list Authenticator) : M unit :=
  match todo with
  | [] => _not_authenticated_direct
  | authenticator :: todo' =>
      fun self =>
        let calling := CallAuthenticate authenticator in
        match authenticate authenticator (_request self) with
        | Raise e =>
            if is_APIException e
            then (call calling (Ok tt) ;; _not_authenticated_direct ;;
                  raise e) self
            else call calling (Raise e) self
        | Ok (Some (user, auth)) =>
            (call calling (Ok tt) ;;
             modify (set_authenticator (Some authenticator)) ;;
             checked (user_setter user) ;;
             checked (auth_setter auth)) self
        | Ok None =>
            (call calling (Ok tt) ;; _authenticate_from_direct todo') self
        end
  end.

Definition _authenticate_direct : M unit :=
  fun self => _authenticate_from_direct (authenticators self) self.

(** "The successful authenticator is non-null and the value is falsy": when
    assigning the value to [request.user] breaks the authenticator
    invariant. *)
Definition breaks_authenticator_invariant (self : Request) (v : value)
  : bool :=
  match _authenticator self with
  | Some (Some _) => negb (truthy v)
  | _ => false
  end.

(** *** The context manager [override_method] *)

(** A view, as far as [override_method] touches it: its [request] and
    [action] attributes, which may be missing, and its [action_map]. *)
Record View : Type := {
  view_request : option Request;
  view_action : option value;
  view_action_map : option (gmap string value);
}.

(** The attributes of an [override_method] object besides the view, which is
    the mutable object the methods below take and give back. *)
Record override_method : Type := {
  om_request : Request;
  om_method : string;
  om_action : value;
}.

(** [override_method.__init__(self, view, request, method)] *)
Definition override_method__init__ (view : View) (request : Request)
    (method_ : string) : override_method :=
  {| om_request := request;
     om_method := method_;
     om_action := default None_ (view_action view) |}.

(** [override_method.__enter__]: the assignment to [view.request] happens
    only if [clone_request] returns. [lower] is [str.lower]. *)
Definition __enter__ (lower : string -> string) (self : override_method)
    (view : View) : result Request * View :=
  match clone_request (om_request self) (om_method self) with
  | Raise e => (Raise e, view)
  | Ok cloned =>
      let action_map := default ∅ (view_action_map view) in
      (Ok cloned,
       {| view_request := Some cloned;
          view_action :=
            Some (default None_ (action_map !! lower (om_method self)));
          view_action_map := view_action_map view |})
  end.

(** [override_method.__exit__] *)
Definition __exit__ (self : override_method) (view : View) : View :=
  {| view_request := Some (om_request self);
     view_action := Some (om_action self);
     view_action_map := view_action_map view |}.

(** [with override_method(view, request, method) as request: body]. The body
    runs only if [__enter__] returns, and [__exit__] runs after the body,
    whether it returned or raised. *)
Definition with_override_method {A} (lower : string -> string) (view : View)
    (request : Request) (method_ : string)
    (body : Request -> View -> result A * View) : result A * View :=
  let manager := override_method__init__ view request method_ in
  match __enter__ lower manager view with
  | (Raise e, view') => (Raise e, view')
  | (Ok cloned, view') =>
      let '(res, view'') := body cloned view' in
      (res, __exit__ manager view'')
  end.

(** ** Properties *)


(** C1. Cloning is meant to give a new facade over the same wrapped request
    with the method replaced and the caches copied. The constructor call in
    [clone_request] passes [negotiator] and [parser_context] by keyword, and
    [Request.__init__] declares neither: for every facade and every method
    string the call raises [TypeError] and no clone is produced. *)
Theorem clone_request_raises_TypeError (request : Request) (method_ : string) :
  clone_request request method_
  = Raise (TypeError
      "Request.__init__() got an unexpected keyword argument 'negotiator'").
Proof. reflexivity. Qed.

(** What resolving the stream does to the facade: nothing when the cache is
    filled; otherwise it fills the cache, or fails on the body read and
    leaves the facade as it was. It calls no collaborator. *)
Lemma stream_cases (self : Request) :
  (exists v, _stream self = Loaded v /\ stream self = Out (Ok v) self [])
  \/ (_stream self = Empty /\
      exists v, stream self = Out (Ok v) (set_stream (Loaded v) self) [])
  \/ (_stream self = Empty /\
      stream self = Out (Raise RawPostDataException) self []).
Proof.
  unfold stream, _load_stream.
  destruct (_stream self) as [|v] eqn:Hs; run.
  - right.
    destruct (content_length (HttpRequest.META (_request self)) =? 0)%Z;
      [left; split; [reflexivity|eexists; reflexivity]|].
    destruct (HttpRequest._read_started (_request self)) eqn:Hr; simpl;
      [|left; split; [reflexivity|eexists; reflexivity]].
    unfold HttpRequest.body. rewrite Hr.
    destruct (HttpRequest._body (_request self)); simpl;
      [left; split; [reflexivity|eexists; reflexivity]|].
    right. auto.
  - left. exists v. rewrite Hs. auto.
Qed.

(** Resolving the stream changes no attribute but [_stream]. *)
Lemma stream_frame (self self1 : Request) (r : result value) c1 :
  stream self = Out r self1 c1 ->
    _request self1 = _request self /\ parsers self1 = parsers self
    /\ negotiator self1 = negotiator self
    /\ parser_context self1 = parser_context self
    /\ _data self1 = _data self /\ _files self1 = _files self
    /\ _full_data self1 = _full_data self.
Proof.
  intros H.
  destruct (stream_cases self) as [(v & _ & E)|[(_ & v & E)|(_ & E)]];
    rewrite E in H; inversion H; subst; auto 10.
Qed.

(** Parsing when the stream resolves. *)
Lemma _parse_of_stream (self self1 : Request) (v : value) :
  stream self = Out (Ok v) self1 [] ->
  _parse self = _parse_stream (content_type self) v self1.
Proof.
  intros H. unfold _parse. rewrite H. simpl.
  destruct (_parse_stream (content_type self) v self1); reflexivity.
Qed.

(** Parsing a stream that is [None]: the empty defaults, nothing changed. *)
Lemma _parse_stream_None (media_type : string) (self : Request) :
  _parse_stream media_type None_ self
  = Out (Ok (if negb (String.eqb media_type "")
                && is_form_media_type media_type
             then empty_QueryDict (HttpRequest._encoding (_request self))
             else Dict [],
             MultiValueDict [])) self [].
Proof. reflexivity. Qed.


(** Loading data and files once [_parse] has returned. *)
Lemma _load_data_and_files_parsed (self self1 : Request) (d f : value) c :
  _data self = Empty ->
  _parse self = Out (Ok (d, f)) self1 c ->
  _load_data_and_files self
  = Out (Ok tt)
      (let self2 :=
         set_full_data
           (if truthy f then Loaded (copy_update d f) else Loaded d)
           (set_files (Loaded f) (set_data (Loaded d) self1)) in
       if is_form_media_type (content_type self1)
       then set_request
              (HttpRequest.set_post_files d f (_request self1)) self2
       else self2) c.
Proof.
  intros Hd Hp. unfold _load_data_and_files. rewrite Hd. simpl.
  unfold bind at 1. rewrite Hp. run.
  destruct (truthy f); simpl;
    (change (content_type (set_full_data _ _)) with (content_type self1));
    unfold POST_loaded;
    (change (content_type (set_full_data _ _)) with (content_type self1));
    destruct (is_form_media_type (content_type self1)); simpl;
    rewrite ?app_nil_r; reflexivity.
Qed.

Lemma _load_data_and_files_raised (self self1 : Request) (e : exn) c :
  _data self = Empty ->
  _parse self = Out (Raise e) self1 c ->
  _load_data_and_files self = Out (Raise e) self1 c.
Proof.
  intros Hd Hp. unfold _load_data_and_files. rewrite Hd. simpl.
  unfold bind at 1. rewrite Hp. reflexivity.
Qed.


(** C7. When the stream resolves to [None]: [_parse] returns an empty
    [QueryDict] as data if the request declares a form media type, the
    generic [{}] if it declares none or another one, and an empty
    [MultiValueDict] as files in both cases; on a facade whose data is not
    resolved yet, [data] resolves to that same empty data and the caches hold
    it. *)
Theorem empty_stream_gives_typed_empty_data (self self1 : Request) :
  stream self = Out (Ok None_) self1 [] ->
  _data self = Empty -> _full_data self = Empty ->
  let empty_data :=
    if declares_form_media_type self
    then empty_QueryDict (HttpRequest._encoding (_request self))
    else Dict [] in
  _parse self = Out (Ok (empty_data, MultiValueDict [])) self1 []
  /\ exists self', data self = Out (Ok empty_data) self' []
       /\ _data self' = Loaded empty_data
       /\ _files self' = Loaded (MultiValueDict [])
       /\ _full_data self' = Loaded empty_data.
Proof.
  intros E Hd Hf empty_data.
  destruct (stream_frame _ _ _ _ E) as (Hr & _).
  pose proof (_parse_of_stream _ _ _ E) as Hp.
  rewrite _parse_stream_None, Hr in Hp.
  fold (declares_form_media_type self) in Hp. fold empty_data in Hp.
  split; [exact Hp|].
  pose proof (_load_data_and_files_parsed _ _ _ _ _ Hd Hp) as Hl.
  unfold data, wrap_attributeerrors. rewrite Hf. simpl.
  unfold bind. rewrite Hl. run.
  destruct (is_form_media_type (content_type self1));
    simpl; eexists; repeat split; reflexivity.
Qed.

(** Parsing when the body read behind [self.stream] fails. *)
Lemma _parse_of_failed_stream (self self1 : Request) :
  stream self = Out (Raise RawPostDataException) self1 [] ->
  self1 = self /\
  _parse self =
    match HttpRequest._post_files (_request self) with
    | None => Out (Raise RawPostDataException) self []
    | Some (post, files) =>
        if _supports_form_parsing self
        then Out (Ok (post, files)) self []
        else _parse_stream (content_type self) None_ self
    end.
Proof.
  intros E.
  assert (self1 = self) as ->.
  { destruct (stream_cases self) as [(v & _ & E')|[(_ & v & E')|(_ & E')]];
      rewrite E' in E; inversion E; reflexivity. }
  split; [reflexivity|].
  unfold _parse. rewrite E.
  destruct (HttpRequest._post_files (_request self)) as [[post files]|];
    [|reflexivity].
  destruct (_supports_form_parsing self); reflexivity.
Qed.

(** C2, as the code has it. When the body read behind [self.stream] fails
    with [RawPostDataException]: if the wrapped request has no parsed form
    ([_post]), the error propagates unchanged; if it has one and some parser
    declares a form media type, [_parse] returns the wrapped request's form
    fields and files; if it has one and no parser declares a form media type,
    the stream is taken to be [None] and [_parse] returns the empty defaults
    without raising. *)
Theorem body_read_conflict_outcomes (self self1 : Request) :
  stream self = Out (Raise RawPostDataException) self1 [] ->
  _parse self =
    match HttpRequest._post_files (_request self) with
    | None => Out (Raise RawPostDataException) self1 []
    | Some (post, files) =>
        if _supports_form_parsing self
        then Out (Ok (post, files)) self1 []
        else Out (Ok (if declares_form_media_type self
                      then empty_QueryDict
                             (HttpRequest._encoding (_request self))
                      else Dict [],
                      MultiValueDict [])) self1 []
    end.
Proof.
  intros E. destruct (_parse_of_failed_stream _ _ E) as [-> ->].
  destruct (HttpRequest._post_files (_request self)) as [[post files]|];
    [|reflexivity].
  destruct (_supports_form_parsing self); reflexivity.
Qed.

(** Parsing a stream that is not [None]: what the negotiator and the selected
    parser decide. *)
Lemma _parse_stream_some (media_type : string) (v : value) (self : Request) :
  is_None v = false ->
  _parse_stream media_type v self =
    match select_parser (negotiator self) (_request self) (parsers self) with
    | None =>
        Out (Raise (UnsupportedMediaType media_type)) self
          [CallSelectParser (parsers self)]
    | Some parser =>
        let made := [CallSelectParser (parsers self);
                     CallParse parser v media_type] in
        match parse parser v media_type (context_for self) with
        | Raise e =>
            let empty :=
              empty_QueryDict (HttpRequest._encoding (_request self)) in
            Out (Raise e)
              (set_full_data (Loaded empty)
                 (set_files (Loaded (MultiValueDict []))
                    (set_data (Loaded empty) self))) made
        | Ok (DataAndFiles data files) => Out (Ok (data, files)) self made
        | Ok (RawData data) => Out (Ok (data, MultiValueDict [])) self made
        end
    end.
Proof.
  intros Hv. unfold _parse_stream. rewrite Hv.
  destruct (select_parser _ _ _) as [parser|]; [|reflexivity].
  destruct (parse parser v media_type (context_for self)) as [[d f|d]|e];
    reflexivity.
Qed.

(** Parsing never touches the wrapped request. *)
Lemma _parse_stream_frame (media_type : string) (v : value) (self : Request) :
  _request (final (_parse_stream media_type v self)) = _request self.
Proof.
  destruct (is_None v) eqn:Hv.
  - destruct v; try discriminate. reflexivity.
  - rewrite (_parse_stream_some _ _ _ Hv).
    destruct (select_parser _ _ _) as [parser|]; [|reflexivity].
    destruct (parse parser v media_type (context_for self)) as [[d f|d]|e];
      reflexivity.
Qed.

Lemma _parse_frame (self : Request) :
  _request (final (_parse self)) = _request self.
Proof.
  destruct (stream_cases self) as [(v & _ & E)|[(_ & v & E)|(_ & E)]].
  - rewrite (_parse_of_stream _ _ _ E). apply _parse_stream_frame.
  - rewrite (_parse_of_stream _ _ _ E), _parse_stream_frame. reflexivity.
  - destruct (_parse_of_failed_stream _ _ E) as [_ ->].
    destruct (HttpRequest._post_files (_request self)) as [[post files]|];
      [|reflexivity].
    destruct (_supports_form_parsing self); reflexivity.
Qed.

Lemma context_for_frame (self self1 : Request) :
  _request self1 = _request self ->
  parser_context self1 = parser_context self ->
  context_for self1 = context_for self.
Proof. unfold context_for. intros -> ->. reflexivity. Qed.

(** Parsing a resolved, non-[None] stream, stated on the facade as it was
    before the stream was resolved. *)
Lemma _parse_of_some_stream (self self1 : Request) (v : value) :
  stream self = Out (Ok v) self1 [] ->
  is_None v = false ->
  _parse self =
    match select_parser (negotiator self) (_request self) (parsers self) with
    | None =>
        Out (Raise (UnsupportedMediaType (content_type self))) self1
          [CallSelectParser (parsers self)]
    | Some parser =>
        let made := [CallSelectParser (parsers self);
                     CallParse parser v (content_type self)] in
        match parse parser v (content_type self) (context_for self) with
        | Raise e =>
            let empty :=
              empty_QueryDict (HttpRequest._encoding (_request self)) in
            Out (Raise e)
              (set_full_data (Loaded empty)
                 (set_files (Loaded (MultiValueDict []))
                    (set_data (Loaded empty) self1))) made
        | Ok (DataAndFiles data files) => Out (Ok (data, files)) self1 made
        | Ok (RawData data) => Out (Ok (data, MultiValueDict [])) self1 made
        end
    end.
Proof.
  intros E Hv.
  destruct (stream_frame _ _ _ _ E) as (Hr & Hp & Hn & Hc & _).
  rewrite (_parse_of_stream _ _ _ E), (_parse_stream_some _ _ _ Hv).
  rewrite (context_for_frame _ _ Hr Hc), Hr, Hp, Hn. reflexivity.
Qed.

(** C3. When the stream resolves to a stream, the negotiator selects a
    parser and that parser's decode step raises [e]: [_parse] raises the same
    [e], having first set [_data] to an empty [QueryDict], [_files] to an
    empty [MultiValueDict] and [_full_data] to that empty data; a read of
    [data] on the facade so left returns the empty [QueryDict], raises
    nothing, calls no collaborator and changes nothing. *)
Theorem decode_failure_leaves_empty_defaults
    (self self1 : Request) (stream_ : value) (parser : Parser) (e : exn) :
  stream self = Out (Ok stream_) self1 [] ->
  is_None stream_ = false ->
  select_parser (negotiator self) (_request self) (parsers self)
    = Some parser ->
  parse parser stream_ (content_type self) (context_for self) = Raise e ->
  let empty := empty_QueryDict (HttpRequest._encoding (_request self)) in
  let self2 :=
    set_full_data (Loaded empty)
      (set_files (Loaded (MultiValueDict []))
         (set_data (Loaded empty) self1)) in
  _parse self
    = Out (Raise e) self2
        [CallSelectParser (parsers self);
         CallParse parser stream_ (content_type self)]
  /\ data self2 = Out (Ok empty) self2 [].
Proof.
  intros E Hv Hsel Hparse empty self2.
  rewrite (_parse_of_some_stream _ _ _ E Hv), Hsel, Hparse.
  split; reflexivity.
Qed.

(** C8, as the code has it. When the stream resolves to a stream and the
    negotiator selects no parser, [_parse] raises [UnsupportedMediaType]
    carrying the content type of the request, which is the empty string when
    none is declared; the negotiator is asked once and no parser is run.
    Conversely, when [_parse] raises [UnsupportedMediaType], the stream had
    resolved to a stream and either the negotiator selected no parser and the
    error carries the content type, or the selected parser's decode step
    raised that error itself. *)
Theorem unsupported_media_type_when_no_parser_selected (self : Request) :
  (forall (stream_ : value) (self1 : Request),
     stream self = Out (Ok stream_) self1 [] ->
     is_None stream_ = false ->
     select_parser (negotiator self) (_request self) (parsers self) = None ->
     _parse self
       = Out (Raise (UnsupportedMediaType (content_type self))) self1
           [CallSelectParser (parsers self)])
  /\ (forall media_type : string,
        returned (_parse self) = Raise (UnsupportedMediaType media_type) ->
        exists (stream_ : value) (self1 : Request),
          stream self = Out (Ok stream_) self1 []
          /\ is_None stream_ = false
          /\ ((select_parser (negotiator self) (_request self) (parsers self)
                 = None
               /\ media_type = content_type self)
              \/ exists parser,
                   select_parser (negotiator self) (_request self)
                     (parsers self) = Some parser
                   /\ parse parser stream_ (content_type self)
                        (context_for self)
                      = Raise (UnsupportedMediaType media_type))).
Proof.
  split.
  - intros stream_ self1 E Hv Hsel.
    rewrite (_parse_of_some_stream _ _ _ E Hv), Hsel. reflexivity.
  - intros mt H.
    assert (Hok : forall v self1,
      stream self = Out (Ok v) self1 [] ->
      exists (stream_ : value) (self1 : Request),
        stream self = Out (Ok stream_) self1 []
        /\ is_None stream_ = false
        /\ ((select_parser (negotiator self) (_request self) (parsers self)
               = None
             /\ mt = content_type self)
            \/ exists parser,
                 select_parser (negotiator self) (_request self)
                   (parsers self) = Some parser
                 /\ parse parser stream_ (content_type self)
                      (context_for self)
                    = Raise (UnsupportedMediaType mt))).
    { intros v self1 E. exists v, self1. split; [exact E|].
      destruct (is_None v) eqn:Hv.
      - destruct v; try discriminate.
        rewrite (_parse_of_stream _ _ _ E), _parse_stream_None in H.
        discriminate.
      - split; [reflexivity|].
        rewrite (_parse_of_some_stream _ _ _ E Hv) in H.
        destruct (select_parser _ _ _) as [parser|].
        + right. exists parser. split; [reflexivity|].
          destruct (parse parser v (content_type self) (context_for self))
            as [[d f|d]|e]; simpl in H; try discriminate.
          congruence.
        + left. simpl in H. split; congruence. }
    destruct (stream_cases self) as [(v & _ & E)|[(_ & v & E)|(_ & E)]];
      [exact (Hok _ _ E)|exact (Hok _ _ E)|].
    destruct (_parse_of_failed_stream _ _ E) as [_ Hp]. rewrite Hp in H.
    destruct (HttpRequest._post_files (_request self)) as [[post files]|];
      [|discriminate].
    destruct (_supports_form_parsing self); discriminate.
Qed.

(** C9. When [_load_data_and_files] runs on a facade whose data is not
    loaded yet and returns: [_data] and [_files] are loaded; if the content
    type of the request is a form media type, the wrapped request's [_post]
    and [_files] now hold exactly the facade's [_data] and [_files];
    otherwise the wrapped request is as it was before. *)
Theorem parsed_form_is_written_back (self self' : Request) c :
  _data self = Empty ->
  _load_data_and_files self = Out (Ok tt) self' c ->
  exists d f,
    _data self' = Loaded d /\ _files self' = Loaded f
    /\ if is_form_media_type (content_type self)
       then HttpRequest._post_files (_request self') = Some (d, f)
       else _request self' = _request self.
Proof.
  intros Hd Hl.
  pose proof (_parse_frame self) as Hr.
  destruct (_parse self) as [[[d f]|e] self1 c1] eqn:Hp; simpl in Hr.
  - rewrite (_load_data_and_files_parsed _ _ _ _ _ Hd Hp) in Hl.
    assert (Hc : content_type self1 = content_type self)
      by (unfold content_type; rewrite Hr; reflexivity).
    rewrite Hc in Hl. exists d, f.
    destruct (is_form_media_type (content_type self));
      inversion Hl; subst; clear Hl; destruct (truthy f); simpl; auto.
  - rewrite (_load_data_and_files_raised _ _ _ _ Hd Hp) in Hl. discriminate.
Qed.

(** Marking a request unauthenticated: it returns, calls no collaborator, and
    sets the three attributes, the identity and the token also on the wrapped
    request. *)
Lemma _not_authenticated_run (self : Request) :
  exists self',
    _not_authenticated self = Out (Ok tt) self' []
    /\ _authenticator self' = Some None
    /\ _user self' = Some unauthenticated_user
    /\ _auth self' = Some unauthenticated_token
    /\ HttpRequest.user (_request self') = Some unauthenticated_user
    /\ HttpRequest.auth (_request self') = Some unauthenticated_token.
Proof.
  unfold _not_authenticated, unauthenticated_user, unauthenticated_token.
  destruct (UNAUTHENTICATED_USER api_settings);
    destruct (UNAUTHENTICATED_TOKEN api_settings);
    eexists; repeat split; reflexivity.
Qed.

(** The loop passes over authenticators that return [None] and stops at the
    first one that raises an API exception. *)
Lemma _authenticate_from_raises
    (passed rest : list Authenticator) (a : Authenticator) (e : exn)
    (self : Request) :
  Forall (fun b => authenticate b (_request self) = Ok None) passed ->
  authenticate a (_request self) = Raise e ->
  is_APIException e = true ->
  _authenticate_from (passed ++ a :: rest)%list self
  = Out (Raise e) (final (_not_authenticated self))
      (CallAuthenticate <$> (passed ++ [a])%list).
Proof.
  intros Hpassed Ha He.
  induction Hpassed as [|b passed Hb _ IH]; simpl.
  - rewrite Ha, He.
    destruct (_not_authenticated_run self) as (self' & E & _).
    run. rewrite E. reflexivity.
  - rewrite Hb. run. rewrite IH. reflexivity.
Qed.

(** C4. When the authenticators before [a] all return [None] and [a] raises
    an API exception [e]: [_authenticate] raises [e]; the authenticators
    called are those up to [a], in order, and none after it; and the facade
    it leaves has [_authenticator] set to [None], [_user] to the configured
    anonymous identity or [None], and [_auth] to the configured default token
    or [None]. *)
Theorem api_exception_marks_unauthenticated
    (self : Request) (passed rest : list Authenticator) (a : Authenticator)
    (e : exn) :
  authenticators self = (passed ++ a :: rest)%list ->
  Forall (fun b => authenticate b (_request self) = Ok None) passed ->
  authenticate a (_request self) = Raise e ->
  is_APIException e = true ->
  exists self',
    _authenticate self
      = Out (Raise e) self' (CallAuthenticate <$> (passed ++ [a])%list)
    /\ _authenticator self' = Some None
    /\ _user self' = Some unauthenticated_user
    /\ _auth self' = Some unauthenticated_token.
Proof.
  intros Hl Hpassed Ha He.
  unfold _authenticate. rewrite Hl.
  rewrite (_authenticate_from_raises _ _ _ _ _ Hpassed Ha He).
  destruct (_not_authenticated_run self) as (self' & E & H1 & H2 & H3 & _).
  exists self'. rewrite E. simpl. auto.
Qed.

(** Whenever [_authenticate] returns, the three attributes are set. *)
Lemma _authenticate_from_sets_identity (todo : list Authenticator)
    (self : Request) :
  returned (_authenticate_from todo self) = Ok tt ->
  let self' := final (_authenticate_from todo self) in
  is_Some (_authenticator self') /\ is_Some (_user self')
  /\ is_Some (_auth self').
Proof.
  induction todo as [|a todo IH]; simpl.
  - destruct (_not_authenticated_run self) as (s & E & H1 & H2 & H3 & _).
    rewrite E. simpl. rewrite H1, H2, H3. eauto.
  - destruct (authenticate a (_request self)) as [[[u t]|]|e].
    + intros _. simpl. eauto.
    + run. destruct (_authenticate_from todo self) as [r s c]. exact IH.
    + destruct (is_APIException e); [|discriminate].
      destruct (_not_authenticated_run self) as (s & E & _).
      run. rewrite E. discriminate.
Qed.

(** The invariants hold exactly when none of the three checks fails. *)
Lemma invariant_failure_None (self : Request) :
  invariant_failure self = None <->
  cache_failure self = None /\ authenticator_failure self = None
  /\ encoding_failure self = None.
Proof.
  unfold invariant_failure.
  destruct (cache_failure self); [split; [discriminate|intros (H & _); discriminate]|].
  destruct (authenticator_failure self);
    [split; [discriminate|intros (_ & H & _); discriminate]|].
  split; [intros H; repeat split; exact H | intros (_ & _ & H); exact H].
Qed.

(** On a facade that differs from one that passed the checks only in what
    authentication sets, the authenticator invariant is the one check that
    can fail. *)
Lemma invariant_failure_after (self self' : Request) :
  invariant_failure self = None ->
  _data self' = _data self -> _full_data self' = _full_data self ->
  _stream self' = _stream self ->
  parser_context self' = parser_context self ->
  invariant_failure self' = authenticator_failure self'.
Proof.
  intros Hinv Hd Hf Hs Hc.
  apply invariant_failure_None in Hinv. destruct Hinv as (Hcache & _ & Henc).
  unfold invariant_failure.
  assert (cache_failure self' = None) as ->.
  { unfold cache_failure, inv_data, inv_stream, post__load_stream
      in Hcache |- *.
    rewrite Hd, Hf, Hs. exact Hcache. }
  assert (encoding_failure self' = None) as ->.
  { unfold encoding_failure in Henc |- *. rewrite Hc. exact Henc. }
  destruct (authenticator_failure self'); reflexivity.
Qed.

(** The authenticator check fails exactly when the declared invariant is
    false. *)
Lemma authenticator_failure_inv (self : Request) :
  authenticator_failure self = None <-> inv_authenticator self = true.
Proof.
  unfold authenticator_failure, inv_authenticator.
  destruct (_authenticator self) as [[a|]|];
    try (split; intros _; reflexivity).
  destruct (_user self) as [u|]; [|split; discriminate].
  destruct (truthy u); split; congruence.
Qed.

(** Authentication, run inside a checked member, leaves the data and stream
    caches and the parser context as they were. *)
Lemma _not_authenticated_keeps_caches (self : Request) :
  let self' := final (_not_authenticated self) in
  _data self' = _data self /\ _full_data self' = _full_data self
  /\ _stream self' = _stream self
  /\ parser_context self' = parser_context self.
Proof.
  unfold _not_authenticated.
  destruct (UNAUTHENTICATED_USER api_settings);
    destruct (UNAUTHENTICATED_TOKEN api_settings); repeat split; reflexivity.
Qed.

Lemma _authenticate_keeps_caches (self : Request) :
  let self' := final (_authenticate self) in
  _data self' = _data self /\ _full_data self' = _full_data self
  /\ _stream self' = _stream self
  /\ parser_context self' = parser_context self.
Proof.
  unfold _authenticate.
  induction (authenticators self) as [|a todo IH]; simpl.
  - apply _not_authenticated_keeps_caches.
  - destruct (authenticate a (_request self)) as [[[u t]|]|e].
    + repeat split; reflexivity.
    + run. destruct (_authenticate_from todo self). exact IH.
    + destruct (is_APIException e); [|repeat split; reflexivity].
      pose proof (_not_authenticated_keeps_caches self) as Hn.
      destruct (_not_authenticated_run self) as (s' & E & _).
      run. rewrite E in *. exact Hn.
Qed.

(** Where a read of [user] leaves the facade: as it was when the user is
    set, and as authentication leaves it otherwise. *)
Lemma user_final (self : Request) :
  final (user self)
  = match _user self with
    | Some _ => self
    | None => final (_authenticate self)
    end.
Proof.
  unfold user. destruct (_user self) as [v|] eqn:Hu; simpl.
  - reflexivity.
  - unfold wrap_attributeerrors, bind.
    destruct (_authenticate self) as [[[]|e] s c]; simpl.
    + destruct (_user s); reflexivity.
    + destruct e; reflexivity.
Qed.

(** C5. The class invariant says that a non-null successful authenticator
    comes with a set, non-null (indeed truthy) identity. Take a request the
    test client marked with a forced token and no forced user: [__init__]
    installs [ForcedAuthentication(None, token)] and the fresh facade passes
    the invariant checks. Reading [user] authenticates, records that
    authenticator and sets the identity to [None]; the check after the read
    then raises [ViolationError] and the facade stays with a non-null
    authenticator and a null identity. Calling [_authenticate] on its own
    records the authenticator and is stopped by the check before the [user]
    setter, with [RuntimeError]: the authenticator is set and the identity is
    not. Either way the invariant, in the words of the decorator and in
    those of the specification, held before and is broken after. *)
Theorem forced_token_without_user_breaks_invariant :
  let token := Str "t0k3n" in
  let request :=
    HttpRequest.mk ∅ (Some "utf-8") false None "" "GET" None None None
      None_ token in
  let forced := ForcedAuthentication None_ token in
  let self := __init__ request None None in
  let read := checked user self in
  let direct := _authenticate_direct self in
  (invariant_failure self = None /\ inv_authenticator self = true
   /\ identity_follows_authenticator self = true)
  /\ (returned read = Raise ViolationError
      /\ calls read = [CallAuthenticate forced]
      /\ _authenticator (final read) = Some (Some forced)
      /\ _user (final read) = Some None_
      /\ inv_authenticator (final read) = false
      /\ identity_follows_authenticator (final read) = false)
  /\ (returned direct = Raise RuntimeError
      /\ _authenticator (final direct) = Some (Some forced)
      /\ _user (final direct) = None
      /\ inv_authenticator (final direct) = false
      /\ identity_follows_authenticator (final direct) = false).
Proof. repeat split; reflexivity. Qed.

(** C10. When the wrapped request carries a forced user or a forced token
    (one of them not [None] is enough), the facade built by [__init__] has
    the single authenticator [ForcedAuthentication(user, token)], whatever
    authenticators were configured, and that authenticator returns the forced
    pair on every request. On a fresh facade that passes the invariant
    checks, a read of [user] calls exactly that authenticator and leaves the
    forced pair as [_user] and [_auth] and the forced authenticator as the
    successful one; the read returns the forced user when it is truthy, and
    raises [ViolationError] from the check after the read when it is falsy,
    as it is with a forced token alone. [_authenticate] called on its own
    calls that authenticator too, records it, and is stopped by the check
    before the [user] setter with [RuntimeError], the pair not stored. *)
Theorem forced_authentication_bypasses_authenticators
    (request : HttpRequest.t) (parsers_ : option (list Parser))
    (authenticators_ : option (list Authenticator)) :
  is_None (HttpRequest._force_auth_user request) = false
  \/ is_None (HttpRequest._force_auth_token request) = false ->
  let force_user := HttpRequest._force_auth_user request in
  let force_token := HttpRequest._force_auth_token request in
  let forced := ForcedAuthentication force_user force_token in
  let self := __init__ request parsers_ authenticators_ in
  invariant_failure self = None ->
  authenticators self = [forced]
  /\ (forall rq, authenticate forced rq = Ok (Some (force_user, force_token)))
  /\ exists self',
       checked user self
       = Out (if truthy force_user then Ok force_user
              else Raise ViolationError)
           self' [CallAuthenticate forced]
       /\ _user self' = Some force_user
       /\ _auth self' = Some force_token
       /\ _authenticator self' = Some (Some forced)
       /\ _authenticate_direct self
          = Out (Raise RuntimeError) (set_authenticator (Some forced) self)
              [CallAuthenticate forced].
Proof.
  intros Hforced force_user force_token forced self Hinv.
  assert (Hl : authenticators self = [forced]).
  { unfold self, __init__. simpl.
    destruct Hforced as [-> | ->]; simpl; [reflexivity|].
    rewrite orb_true_r. reflexivity. }
  split; [exact Hl|]. split; [reflexivity|].
  assert (Hdirect : _authenticate_direct self
            = Out (Raise RuntimeError) (set_authenticator (Some forced) self)
                [CallAuthenticate forced]).
  { unfold _authenticate_direct. rewrite Hl. reflexivity. }
  assert (Hread : exists self',
            user self = Out (Ok force_user) self' [CallAuthenticate forced]
            /\ _user self' = Some force_user
            /\ _auth self' = Some force_token
            /\ _authenticator self' = Some (Some forced)
            /\ _data self' = _data self /\ _full_data self' = _full_data self
            /\ _stream self' = _stream self
            /\ parser_context self' = parser_context self).
  { unfold user, wrap_attributeerrors, bind, _authenticate. rewrite Hl.
    eexists. repeat split; reflexivity. }
  destruct Hread as (self' & E & Hu & Ha & Hau & Hd & Hf & Hs & Hc).
  exists self'. repeat split; try assumption.
  unfold checked. rewrite Hinv, E.
  rewrite (invariant_failure_after _ _ Hinv Hd Hf Hs Hc).
  unfold authenticator_failure. rewrite Hau, Hu.
  destruct (truthy force_user); reflexivity.
Qed.

(** ** Further properties of the facade *)

(** X1. A facade fresh from [__init__] carries the encoding of the wrapped
    request, or the default charset when the request has none; it meets the
    declared invariants on data, stream and authenticator, and it meets the
    declared postcondition on the encoding exactly when the request has a
    non-empty encoding or the default charset is not empty. *)
Theorem fresh_facade_contracts (request : HttpRequest.t)
    (parsers_ : option (list Parser))
    (authenticators_ : option (list Authenticator)) :
  let self := __init__ request parsers_ authenticators_ in
  parser_context self !! "encoding"
    = Some (or_default (HttpRequest.encoding request) DEFAULT_CHARSET)
  /\ inv_data self = true /\ inv_stream self = true
  /\ inv_authenticator self = true
  /\ (inv_encoding self = true
      <-> (exists e, HttpRequest.encoding request = Some e /\ e <> "")
          \/ DEFAULT_CHARSET <> "").
Proof.
  intros self.
  assert (E : parser_context self !! "encoding"
              = Some (or_default (HttpRequest.encoding request)
                        DEFAULT_CHARSET))
    by (unfold self, __init__; simpl; apply lookup_insert_eq).
  split; [exact E|]. repeat (split; [reflexivity|]).
  unfold inv_encoding. rewrite E. unfold or_default.
  destruct (HttpRequest.encoding request) as [e|].
  - destruct (String.eqb e "") eqn:He.
    + apply String.eqb_eq in He. subst e.
      destruct (String.eqb DEFAULT_CHARSET "") eqn:Hd; simpl.
      * apply String.eqb_eq in Hd. split; [discriminate|].
        intros [(e & He & Hne)|Hne]; [|contradiction].
        inversion He. subst e. contradiction.
      * apply String.eqb_neq in Hd. split; auto.
    + rewrite He. simpl. apply String.eqb_neq in He. split; eauto.
  - destruct (String.eqb DEFAULT_CHARSET "") eqn:Hd; simpl.
    + apply String.eqb_eq in Hd. split; [discriminate|].
      intros [(e & He & _)|Hne]; [discriminate|contradiction].
    + apply String.eqb_neq in Hd. split; auto.
Qed.

(** X2. [_load_stream] calls no collaborator. It fails only with
    [RawPostDataException], leaving the facade as it was, and it does so
    exactly when the declared content length is not 0, the wrapped request
    was already read from and its body was not buffered. When it returns,
    its declared postcondition and the stream invariant hold, and the stream
    is [None] exactly when the content length is 0. *)
Theorem _load_stream_outcomes (self : Request) :
  let o := _load_stream self in
  let rq := _request self in
  calls o = []
  /\ (forall e, returned o = Raise e ->
        e = RawPostDataException /\ final o = self)
  /\ ((exists e, returned o = Raise e)
      <-> content_length (HttpRequest.META rq) <> 0%Z
          /\ HttpRequest._read_started rq = true
          /\ HttpRequest._body rq = None)
  /\ (returned o = Ok tt ->
        post__load_stream (final o) = true
        /\ inv_stream (final o) = true
        /\ (is_None (of_slot (_stream (final o))) = true
            <-> content_length (HttpRequest.META rq) = 0%Z)).
Proof.
  unfold _load_stream. simpl.
  destruct (Z.eqb_spec (content_length (HttpRequest.META (_request self))) 0)
    as [Hz|Hz]; [simpl; settle|].
  destruct (HttpRequest._read_started (_request self)) eqn:Hr; simpl;
    [|settle].
  unfold HttpRequest.body. rewrite Hr.
  destruct (HttpRequest._body (_request self)) as [b|]; simpl; settle.
Qed.

(** X3. Entering [override_method] never succeeds: whatever the view, the
    request, the method and the body of the [with] statement, the statement
    raises the [TypeError] of [clone_request]; the body is not run and the
    view keeps its request and action. *)
Theorem override_method_never_enters {A} (lower : string -> string)
    (view : View) (request : Request) (method_ : string)
    (body : Request -> View -> result A * View) :
  exists msg,
    with_override_method lower view request method_ body
    = (Raise (TypeError msg), view).
Proof. eexists. reflexivity. Qed.

(** Reading [data] when the combined data is cached, and when the data is
    cached without the combined data. *)
Lemma data_of_cache (self : Request) (v : value) :
  _full_data self = Loaded v -> data self = Out (Ok v) self [].
Proof. intros H. unfold data. rewrite H. run. rewrite H. reflexivity. Qed.

Lemma data_without_combined (self : Request) (w : value) :
  _full_data self = Empty -> _data self = Loaded w ->
  data self = Out (Ok EmptyClass) self [].
Proof.
  intros Hf Hd. unfold data, wrap_attributeerrors, _load_data_and_files.
  rewrite Hf. simpl. unfold bind. rewrite Hd. run. rewrite Hf. reflexivity.
Qed.

(** Reading [data] when nothing is cached, by what [_parse] does. *)
Lemma data_of_parse (self : Request) :
  _full_data self = Empty -> _data self = Empty ->
  data self =
    match _parse self with
    | Out (Ok (d, f)) self1 c =>
        let combined := if truthy f then copy_update d f else d in
        let self2 :=
          set_full_data (Loaded combined)
            (set_files (Loaded f) (set_data (Loaded d) self1)) in
        Out (Ok combined)
          (if is_form_media_type (content_type self1)
           then set_request
                  (HttpRequest.set_post_files d f (_request self1)) self2
           else self2) c
    | Out (Raise (AttributeError msg)) self1 c =>
        Out (Raise (WrappedAttributeError msg)) self1 c
    | Out (Raise e) self1 c => Out (Raise e) self1 c
    end.
Proof.
  intros Hf Hd. unfold data, wrap_attributeerrors. rewrite Hf. simpl.
  unfold bind.
  destruct (_parse self) as [[[d f]|e] self1 c] eqn:Hp.
  - rewrite (_load_data_and_files_parsed _ _ _ _ _ Hd Hp). run.
    rewrite app_nil_r.
    destruct (is_form_media_type (content_type self1));
      destruct (truthy f); reflexivity.
  - rewrite (_load_data_and_files_raised _ _ _ _ Hd Hp).
    destruct e; reflexivity.
Qed.

(** X4. [data] is computed once. Whenever a read of [data] returns, on any
    facade, a second read returns the same object, calls neither the
    negotiator nor a parser, and changes nothing. *)
Theorem data_is_cached (self self' : Request) (d : value) c :
  data self = Out (Ok d) self' c ->
  data self' = Out (Ok d) self' [].
Proof.
  destruct (_full_data self) as [|v] eqn:Hf.
  - destruct (_data self) as [|w] eqn:Hd.
    + rewrite (data_of_parse _ Hf Hd).
      destruct (_parse self) as [[[pd pf]|e] self1 c1].
      * intros H. inversion H; subst; clear H. apply data_of_cache.
        destruct (is_form_media_type (content_type self1)); reflexivity.
      * destruct e; discriminate.
    + rewrite (data_without_combined _ _ Hf Hd).
      intros H. inversion H; subst; clear H.
      exact (data_without_combined _ _ Hf Hd).
  - rewrite (data_of_cache _ _ Hf). intros H. inversion H; subst; clear H.
    exact (data_of_cache _ _ Hf).
Qed.

(** The loop passes over the authenticators that return [None], calling each
    one, and goes on with the rest on the same facade. *)
Lemma _authenticate_from_passes (passed todo : list Authenticator)
    (self : Request) :
  Forall (fun b => authenticate b (_request self) = Ok None) passed ->
  _authenticate_from (passed ++ todo)%list self =
    match _authenticate_from todo self with
    | Out r self' c => Out r self' ((CallAuthenticate <$> passed) ++ c)
    end.
Proof.
  intros Hpassed. induction Hpassed as [|b passed Hb _ IH]; simpl.
  - destruct (_authenticate_from todo self); reflexivity.
  - rewrite Hb. run. rewrite IH.
    destruct (_authenticate_from todo self); reflexivity.
Qed.

(** The first authenticator that returns a pair, inside a checked member:
    the loop stops there, records the authenticator and stores the pair, on
    the facade and on the wrapped request; nothing else changes. *)
Lemma _authenticate_first_success
    (self : Request) (passed rest : list Authenticator) (a : Authenticator)
    (u t : value) :
  authenticators self = (passed ++ a :: rest)%list ->
  Forall (fun b => authenticate b (_request self) = Ok None) passed ->
  authenticate a (_request self) = Ok (Some (u, t)) ->
  exists self',
    _authenticate self
      = Out (Ok tt) self' (CallAuthenticate <$> (passed ++ [a])%list)
    /\ _authenticator self' = Some (Some a)
    /\ _user self' = Some u /\ _auth self' = Some t
    /\ HttpRequest.user (_request self') = Some u
    /\ HttpRequest.auth (_request self') = Some t
    /\ _data self' = _data self /\ _full_data self' = _full_data self
    /\ _stream self' = _stream self
    /\ parser_context self' = parser_context self.
Proof.
  intros Hl Hpassed Ha. unfold _authenticate.
  rewrite Hl, (_authenticate_from_passes _ _ _ Hpassed). simpl. rewrite Ha.
  run. rewrite fmap_app. eexists. repeat split; reflexivity.
Qed.

(** X5. The first authenticator that returns a pair wins. On a facade that
    passes the invariant checks and has no user yet, when the authenticators
    before [a] return [None] and [a] returns [(u, t)], a read of [user] calls
    the authenticators up to [a] and none after it, records [a] as the
    successful authenticator and stores [u] and [t] as user and auth, on the
    facade and on the wrapped request. The read returns [u] when [u] is
    truthy; when [u] is falsy the check after the read raises
    [ViolationError], with the facade left as described. *)
Theorem first_successful_authenticator_wins
    (self : Request) (passed rest : list Authenticator) (a : Authenticator)
    (u t : value) :
  invariant_failure self = None ->
  _user self = None ->
  authenticators self = (passed ++ a :: rest)%list ->
  Forall (fun b => authenticate b (_request self) = Ok None) passed ->
  authenticate a (_request self) = Ok (Some (u, t)) ->
  exists self',
    checked user self
      = Out (if truthy u then Ok u else Raise ViolationError) self'
          (CallAuthenticate <$> (passed ++ [a])%list)
    /\ _authenticator self' = Some (Some a)
    /\ _user self' = Some u /\ _auth self' = Some t
    /\ HttpRequest.user (_request self') = Some u
    /\ HttpRequest.auth (_request self') = Some t.
Proof.
  intros Hinv Hn Hl Hpassed Ha.
  destruct (_authenticate_first_success _ _ _ _ _ _ Hl Hpassed Ha)
    as (self' & E & Hau & Hu & Ht & Hru & Hrt & Hd & Hf & Hs & Hc).
  exists self'. repeat split; try assumption.
  unfold checked. rewrite Hinv.
  unfold user, wrap_attributeerrors, bind. rewrite Hn. simpl.
  rewrite E, Hu. simpl. rewrite app_nil_r.
  rewrite (invariant_failure_after _ _ Hinv Hd Hf Hs Hc).
  unfold authenticator_failure. rewrite Hau, Hu.
  destruct (truthy u); reflexivity.
Qed.

(** Calling [_authenticate] on its own: the loop passes over the
    authenticators that return [None] as it does inside a checked member. *)
Lemma _authenticate_from_direct_passes (passed todo : list Authenticator)
    (self : Request) :
  Forall (fun b => authenticate b (_request self) = Ok None) passed ->
  _authenticate_from_direct (passed ++ todo)%list self =
    match _authenticate_from_direct todo self with
    | Out r self' c => Out r self' ((CallAuthenticate <$> passed) ++ c)
    end.
Proof.
  intros Hpassed. induction Hpassed as [|b passed Hb _ IH]; simpl.
  - destruct (_authenticate_from_direct todo self); reflexivity.
  - rewrite Hb. run. rewrite IH.
    destruct (_authenticate_from_direct todo self); reflexivity.
Qed.

(** X21. Called on its own, outside any checked member, [_authenticate]
    cannot record a success. On a facade that passes the invariant checks
    and has no user yet, when the authenticators before [a] return [None]
    and [a] returns a pair, [_authenticate] assigns [_authenticator] and is
    then stopped by the invariant check before the [user] setter, with
    [RuntimeError]: the facade is left with the authenticator recorded, the
    user and auth unset, and the authenticator invariant broken. *)
Theorem _authenticate_on_its_own_stops_at_the_setter
    (self : Request) (passed rest : list Authenticator) (a : Authenticator)
    (u t : value) :
  invariant_failure self = None ->
  _user self = None ->
  authenticators self = (passed ++ a :: rest)%list ->
  Forall (fun b => authenticate b (_request self) = Ok None) passed ->
  authenticate a (_request self) = Ok (Some (u, t)) ->
  _authenticate_direct self
  = Out (Raise RuntimeError) (set_authenticator (Some a) self)
      (CallAuthenticate <$> (passed ++ [a])%list)
  /\ inv_authenticator (set_authenticator (Some a) self) = false.
Proof.
  intros Hinv Hn Hl Hpassed Ha.
  assert (Hfail : invariant_failure (set_authenticator (Some a) self)
                  = Some RuntimeError).
  { rewrite (invariant_failure_after self); try reflexivity; [|exact Hinv].
    unfold authenticator_failure. simpl. rewrite Hn. reflexivity. }
  split.
  - unfold _authenticate_direct.
    rewrite Hl, (_authenticate_from_direct_passes _ _ _ Hpassed). simpl.
    rewrite Ha. unfold bind at 1 2. unfold call at 1, modify at 1.
    unfold bind. unfold checked at 1. rewrite Hfail.
    rewrite fmap_app. reflexivity.
  - unfold inv_authenticator. simpl. rewrite Hn. reflexivity.
Qed.

(** When every authenticator passes, the request is marked unauthenticated
    after all of them were called. *)
Lemma _authenticate_all_pass (self : Request) :
  Forall (fun b => authenticate b (_request self) = Ok None)
    (authenticators self) ->
  exists self',
    _authenticate self
      = Out (Ok tt) self' (CallAuthenticate <$> authenticators self)
    /\ _authenticator self' = Some None
    /\ _user self' = Some unauthenticated_user
    /\ _auth self' = Some unauthenticated_token
    /\ HttpRequest.user (_request self') = Some unauthenticated_user
    /\ HttpRequest.auth (_request self') = Some unauthenticated_token.
Proof.
  intros Hall. unfold _authenticate.
  pose proof (_authenticate_from_passes _ [] self Hall) as E.
  rewrite app_nil_r in E. rewrite E. simpl.
  destruct (_not_authenticated_run self) as (self' & E' & H).
  rewrite E', app_nil_r. exists self'. split; [reflexivity|exact H].
Qed.

(** X6. When every authenticator returns [None], and so when there is none,
    [_authenticate] returns without raising: each authenticator was called
    once, in order, the successful authenticator is [None], and user and auth
    are the configured defaults, on the facade and on the wrapped request. *)
Theorem no_authenticator_succeeds (self : Request) :
  Forall (fun b => authenticate b (_request self) = Ok None)
    (authenticators self) ->
  exists self',
    _authenticate self
      = Out (Ok tt) self' (CallAuthenticate <$> authenticators self)
    /\ _authenticator self' = Some None
    /\ _user self' = Some unauthenticated_user
    /\ _auth self' = Some unauthenticated_token
    /\ HttpRequest.user (_request self') = Some unauthenticated_user
    /\ HttpRequest.auth (_request self') = Some unauthenticated_token.
Proof.
  exact (_authenticate_all_pass self).
Qed.

(** An exception that is not an API exception, at the first authenticator
    that does not pass. *)
Lemma _authenticate_other_exception
    (self : Request) (passed rest : list Authenticator) (a : Authenticator)
    (e : exn) :
  authenticators self = (passed ++ a :: rest)%list ->
  Forall (fun b => authenticate b (_request self) = Ok None) passed ->
  authenticate a (_request self) = Raise e ->
  is_APIException e = false ->
  _authenticate self
  = Out (Raise e) self (CallAuthenticate <$> (passed ++ [a])%list).
Proof.
  intros Hl Hpassed Ha He. unfold _authenticate.
  rewrite Hl, (_authenticate_from_passes _ _ _ Hpassed). simpl.
  rewrite Ha, He. run. rewrite fmap_app. reflexivity.
Qed.

(** X7. An exception that is not an API exception passes through
    [_authenticate] as it is, and the facade is left exactly as it was: it
    is not marked unauthenticated, and the authenticators after the failing
    one are not called. *)
Theorem other_exception_leaves_facade_unmarked
    (self : Request) (passed rest : list Authenticator) (a : Authenticator)
    (e : exn) :
  authenticators self = (passed ++ a :: rest)%list ->
  Forall (fun b => authenticate b (_request self) = Ok None) passed ->
  authenticate a (_request self) = Raise e ->
  is_APIException e = false ->
  _authenticate self
  = Out (Raise e) self (CallAuthenticate <$> (passed ++ [a])%list).
Proof. apply _authenticate_other_exception. Qed.

(** Inside a checked member, authentication keeps the authenticator
    invariant as long as no authenticator hands back a falsy user. *)
Lemma _authenticate_keeps_inv_authenticator (self : Request) :
  inv_authenticator self = true ->
  Forall (fun a => forall u t,
            authenticate a (_request self) = Ok (Some (u, t)) ->
            truthy u = true) (authenticators self) ->
  inv_authenticator (final (_authenticate self)) = true.
Proof.
  intros Hinv Hall. unfold _authenticate.
  induction Hall as [|a todo Ha _ IH]; simpl.
  - destruct (_not_authenticated_run self) as (s & E & H1 & _).
    rewrite E. simpl. unfold inv_authenticator. rewrite H1. reflexivity.
  - destruct (authenticate a (_request self)) as [[[u t]|]|e].
    + run. unfold inv_authenticator. simpl. exact (Ha u t eq_refl).
    + run. destruct (_authenticate_from todo self). exact IH.
    + destruct (is_APIException e); [|exact Hinv].
      destruct (_not_authenticated_run self) as (s & E & H1 & _).
      run. rewrite E. simpl. unfold inv_authenticator. rewrite H1.
      reflexivity.
Qed.

(** X8. The class invariant on the authenticator survives a read of [user]
    as long as no authenticator hands back a falsy user: if it holds before
    the read and every pair an authenticator returns has a truthy user, it
    holds on the facade the read leaves, whether the read returned, raised
    an authenticator's exception or was refused by an invariant check. *)
Theorem truthy_users_keep_invariant (self : Request) :
  inv_authenticator self = true ->
  Forall (fun a => forall u t,
            authenticate a (_request self) = Ok (Some (u, t)) ->
            truthy u = true) (authenticators self) ->
  inv_authenticator (final (checked user self)) = true.
Proof.
  intros Hinv Hall.
  assert (Hbody : inv_authenticator (final (user self)) = true).
  { rewrite user_final. destruct (_user self); [exact Hinv|].
    exact (_authenticate_keeps_inv_authenticator self Hinv Hall). }
  unfold checked. destruct (invariant_failure self); [exact Hinv|].
  destruct (user self) as [[v|e] s c]; simpl in Hbody.
  - destruct (invariant_failure s); exact Hbody.
  - exact Hbody.
Qed.

(** X9. User, auth and successful authenticator are resolved together. When
    [user] is read on a facade whose user is not set and returns, a second
    read returns the same user, and [auth] and [successful_authenticator]
    return too; none of the three reads calls an authenticator or changes
    the facade. *)
Theorem identity_is_resolved_once (self self' : Request) (u : value) c :
  _user self = None ->
  user self = Out (Ok u) self' c ->
  user self' = Out (Ok u) self' []
  /\ (exists t, auth self' = Out (Ok t) self' [])
  /\ (exists a, successful_authenticator self' = Out (Ok a) self' []).
Proof.
  intros Hn. unfold user at 1. rewrite Hn. simpl.
  unfold wrap_attributeerrors, bind.
  pose proof (_authenticate_from_sets_identity (authenticators self) self)
    as Hset.
  fold (_authenticate self) in Hset.
  destruct (_authenticate self) as [[[]|e] s c0]; simpl in Hset.
  - destruct (Hset eq_refl) as ([a Ha] & [v Hv] & [t Ht]).
    rewrite Hv. run. intros H. inversion H; subst; clear H.
    unfold user, auth, successful_authenticator.
    rewrite Hv, Ht, Ha. simpl. eauto.
  - destruct e; discriminate.
Qed.

(** X10. Setting the user by hand, on a facade that passes the invariant
    checks. The value is stored on the facade and on the wrapped request in
    every case, and auth and the successful authenticator stay as they were.
    If the successful authenticator is non-null and the value is falsy, the
    check after the assignment raises [ViolationError]; otherwise the
    assignment returns and a read of [user] then returns the value without
    calling an authenticator. *)
Theorem user_setter_then_user (self : Request) (v : value) :
  invariant_failure self = None ->
  let self1 := final (user_setter v self) in
  _user self1 = Some v
  /\ HttpRequest.user (_request self1) = Some v
  /\ _auth self1 = _auth self
  /\ _authenticator self1 = _authenticator self
  /\ if breaks_authenticator_invariant self v
     then checked (user_setter v) self = Out (Raise ViolationError) self1 []
     else checked (user_setter v) self = Out (Ok tt) self1 []
          /\ checked user self1 = Out (Ok v) self1 [].
Proof.
  intros Hinv self1. repeat (split; [reflexivity|]).
  assert (Hpost : invariant_failure self1
                  = if breaks_authenticator_invariant self v
                    then Some ViolationError else None).
  { rewrite (invariant_failure_after self); try reflexivity; [|exact Hinv].
    unfold authenticator_failure, breaks_authenticator_invariant. simpl.
    destruct (_authenticator self) as [[a|]|]; try reflexivity.
    destruct (truthy v); reflexivity. }
  assert (Hset : user_setter v self = Out (Ok tt) self1 [])
    by reflexivity.
  assert (Hget : user self1 = Out (Ok v) self1 []) by reflexivity.
  unfold checked. rewrite Hinv, Hset, Hpost.
  destruct (breaks_authenticator_invariant self v); [reflexivity|].
  split; [reflexivity|]. rewrite Hget, Hpost. reflexivity.
Qed.

(** X11. A user set by hand does not survive the first read of [auth] on a
    facade whose auth is not resolved: the read runs the authenticators, and
    when none of them succeeds the user is replaced by the configured
    default, on the facade and on the wrapped request. *)
Theorem auth_read_replaces_user_set_by_hand (self : Request) (v : value) :
  _auth self = None ->
  Forall (fun b => authenticate b
                     (HttpRequest.set_user v (_request self)) = Ok None)
    (authenticators self) ->
  let self1 := final (user_setter v self) in
  exists self2,
    _user self1 = Some v
    /\ auth self1
       = Out (Ok unauthenticated_token) self2
           (CallAuthenticate <$> authenticators self)
    /\ _user self2 = Some unauthenticated_user
    /\ HttpRequest.user (_request self2) = Some unauthenticated_user.
Proof.
  intros Hn Hall self1.
  destruct (_authenticate_all_pass self1 Hall)
    as (self2 & E & _ & Hu & Ha & Hru & _).
  exists self2. split; [reflexivity|].
  unfold auth. change (_auth self1) with (_auth self). rewrite Hn. simpl.
  unfold wrap_attributeerrors, bind. rewrite E. rewrite Ha. run.
  rewrite app_nil_r. auto.
Qed.

(** Parsing keeps the data invariant of a facade whose data is not loaded. *)
Lemma _parse_keeps_inv_data (self : Request) :
  _data self = Empty ->
  inv_data (final (_parse self)) = true.
Proof.
  intros Hd.
  assert (Hps : forall mt v s, _data s = Empty ->
            inv_data (final (_parse_stream mt v s)) = true).
  { intros mt v s Hs. destruct (is_None v) eqn:Hv.
    - destruct v; try discriminate. simpl. unfold inv_data. rewrite Hs.
      reflexivity.
    - rewrite (_parse_stream_some _ _ _ Hv).
      destruct (select_parser _ _ _) as [parser|];
        [|simpl; unfold inv_data; rewrite Hs; reflexivity].
      destruct (parse parser v mt _) as [[d f|d]|e]; simpl;
        unfold inv_data; try rewrite Hs; reflexivity. }
  destruct (stream_cases self) as [(v & _ & E)|[(_ & v & E)|(_ & E)]].
  - rewrite (_parse_of_stream _ _ _ E). apply Hps, Hd.
  - rewrite (_parse_of_stream _ _ _ E). apply Hps, Hd.
  - destruct (_parse_of_failed_stream _ _ E) as [_ ->].
    destruct (HttpRequest._post_files (_request self)) as [[post files]|].
    + destruct (_supports_form_parsing self); [|apply Hps, Hd].
      simpl. unfold inv_data. rewrite Hd. reflexivity.
    + simpl. unfold inv_data. rewrite Hd. reflexivity.
Qed.

(** X12. A decode step that succeeds without files. On a facade with
    nothing cached, when the stream resolves to a stream, the negotiator
    selects a parser and the parser returns bare data, or data with falsy
    files: [data] is the parsed data itself, [_data] and [_full_data] both
    hold it, [_files] holds the files (an empty [MultiValueDict] for bare
    data) and [FILES] returns them; the negotiator and the parser were each
    called once. *)
Theorem decoded_data_and_files
    (self self1 : Request) (stream_ : value) (parser : Parser)
    (parsed : Parsed) :
  _data self = Empty -> _full_data self = Empty ->
  stream self = Out (Ok stream_) self1 [] ->
  is_None stream_ = false ->
  select_parser (negotiator self) (_request self) (parsers self)
    = Some parser ->
  parse parser stream_ (content_type self) (context_for self) = Ok parsed ->
  let d := match parsed with DataAndFiles d _ | RawData d => d end in
  let f := match parsed with
           | DataAndFiles _ f => f
           | RawData _ => MultiValueDict []
           end in
  truthy f = false ->
  exists self',
    data self
    = Out (Ok d) self'
        [CallSelectParser (parsers self);
         CallParse parser stream_ (content_type self)]
    /\ _data self' = Loaded d /\ _full_data self' = Loaded d
    /\ _files self' = Loaded f
    /\ FILES self' = Out (Ok f) self' [].
Proof.
  intros Hd Hf E Hv Hsel Hparse d f Hfalsy.
  rewrite (data_of_parse _ Hf Hd), (_parse_of_some_stream _ _ _ E Hv).
  rewrite Hsel, Hparse.
  destruct parsed as [pd pf|pd]; simpl in *; subst d f; try rewrite Hfalsy;
    destruct (is_form_media_type (content_type self1));
    eexists; repeat split; reflexivity.
Qed.

(** X13. [POST] exposes parsed data only for form media types. Whenever a
    read of [POST] returns, the data is loaded; the value is the facade's
    [_data] if the content type of the request is a form media type, and an
    empty [QueryDict] otherwise, whatever was parsed. *)
Theorem POST_exposes_form_data_only (self self' : Request) (v : value) c :
  POST self = Out (Ok v) self' c ->
  _hasattr (_data self') = true
  /\ (is_form_media_type (content_type self) = true ->
      _data self' = Loaded v)
  /\ (is_form_media_type (content_type self) = false ->
      v = empty_QueryDict (HttpRequest._encoding (_request self))).
Proof.
  unfold POST. destruct (_data self) as [|w] eqn:Hd; simpl.
  - unfold wrap_attributeerrors, bind.
    pose proof (_parse_frame self) as Hr.
    destruct (_parse self) as [[[d f]|e] self1 c1] eqn:Hp; simpl in Hr.
    + rewrite (_load_data_and_files_parsed _ _ _ _ _ Hd Hp). run.
      assert (Hc : content_type self1 = content_type self)
        by (unfold content_type; rewrite Hr; reflexivity).
      unfold POST_loaded. rewrite Hc.
      destruct (is_form_media_type (content_type self)) eqn:Hform;
        simpl; unfold content_type at 1; simpl;
        fold (content_type self1); rewrite Hc, Hform;
        intros H; inversion H; subst; clear H; simpl;
        rewrite ?Hr; settle.
    + rewrite (_load_data_and_files_raised _ _ _ _ Hd Hp).
      destruct e; discriminate.
  - run. unfold POST_loaded.
    destruct (is_form_media_type (content_type self)) eqn:Hform;
      intros H; inversion H; subst; clear H; rewrite Hd; settle.
Qed.

(** X14. A failed negotiation is not cached. When the negotiator selects no
    parser and a read of [data] raises [UnsupportedMediaType], the data
    caches stay unset, and a second read asks the negotiator again and raises
    the same error. *)
Theorem unsupported_media_type_is_not_cached
    (self self' : Request) (media_type : string) c :
  select_parser (negotiator self) (_request self) (parsers self) = None ->
  data self = Out (Raise (UnsupportedMediaType media_type)) self' c ->
  _data self' = Empty /\ _full_data self' = Empty
  /\ data self'
     = Out (Raise (UnsupportedMediaType media_type)) self'
         [CallSelectParser (parsers self)].
Proof.
  intros Hsel H.
  destruct (_full_data self) as [|fd] eqn:Hf;
    [|rewrite (data_of_cache _ _ Hf) in H; discriminate].
  destruct (_data self) as [|w] eqn:Hd;
    [|rewrite (data_without_combined _ _ Hf Hd) in H; discriminate].
  rewrite (data_of_parse _ Hf Hd) in H.
  assert (Hok : forall v self1, stream self = Out (Ok v) self1 [] ->
            stream self1 = Out (Ok v) self1 [] ->
            _data self' = Empty /\ _full_data self' = Empty
            /\ data self'
               = Out (Raise (UnsupportedMediaType media_type)) self'
                   [CallSelectParser (parsers self)]).
  { intros v self1 E E1.
    destruct (stream_frame _ _ _ _ E)
      as (Hr & Hp & Hn & Hc & Hd1 & _ & Hf1).
    destruct (is_None v) eqn:Hv.
    - destruct v; try discriminate.
      rewrite (_parse_of_stream _ _ _ E), _parse_stream_None in H.
      simpl in H.
      destruct (is_form_media_type (content_type self1)); discriminate.
    - rewrite (_parse_of_some_stream _ _ _ E Hv), Hsel in H.
      inversion H; subst; clear H.
      rewrite <- Hd1 in Hd. rewrite <- Hf1 in Hf.
      repeat split; [exact Hd|exact Hf|].
      rewrite (data_of_parse self' Hf Hd),
        (_parse_of_some_stream _ _ _ E1 Hv).
      rewrite Hn, Hr, Hp, Hsel.
      unfold content_type. rewrite Hr. reflexivity. }
  destruct (stream_cases self) as [(v & _ & E)|[(_ & v & E)|(_ & E)]].
  - exact (Hok _ _ E E).
  - apply (Hok _ _ E). unfold stream. reflexivity.
  - destruct (_parse_of_failed_stream _ _ E) as [_ Hp]. rewrite Hp in H.
    destruct (HttpRequest._post_files (_request self)) as [[post files]|];
      [|discriminate].
    destruct (_supports_form_parsing self).
    + simpl in H. destruct (is_form_media_type (content_type self));
        discriminate.
    + rewrite _parse_stream_None in H. simpl in H.
      destruct (is_form_media_type (content_type self)); discriminate.
Qed.

(** X15. The declared contracts of [_load_data_and_files], on a facade
    that satisfies the invariant on the data caches. When it returns, its
    postconditions hold, [_data] and [_full_data] are both set, and so does
    the invariant. When the data is not loaded and the parse step raises, it
    raises the same exception and the invariant still holds. *)
Theorem _load_data_and_files_contracts (self : Request) :
  inv_data self = true ->
  (returned (_load_data_and_files self) = Ok tt ->
   post__load_data_and_files (final (_load_data_and_files self)) = true
   /\ inv_data (final (_load_data_and_files self)) = true)
  /\ (forall e, _data self = Empty -> returned (_parse self) = Raise e ->
      returned (_load_data_and_files self) = Raise e
      /\ inv_data (final (_load_data_and_files self)) = true).
Proof.
  intros Hinv. destruct (_data self) as [|w] eqn:Hd.
  - pose proof (_parse_keeps_inv_data _ Hd) as Hk.
    destruct (_parse self) as [[[d f]|e] self1 c1] eqn:Hp; simpl in Hk.
    + rewrite (_load_data_and_files_parsed _ _ _ _ _ Hd Hp). simpl.
      split; [|discriminate]. intros _.
      destruct (is_form_media_type (content_type self1));
        destruct (truthy f); split; reflexivity.
    + rewrite (_load_data_and_files_raised _ _ _ _ Hd Hp). simpl.
      split; [discriminate|]. intros e' _ He. inversion He; subst e'.
      split; [reflexivity|exact Hk].
  - unfold _load_data_and_files. rewrite Hd. simpl.
    split; [|discriminate]. intros _.
    unfold inv_data in *. unfold post__load_data_and_files.
    rewrite Hd in *. split; exact Hinv.
Qed.

(** X17. An [AttributeError] raised inside an authenticator does not leave
    the [user] property as an [AttributeError], which the attribute protocol
    would take for a missing attribute: [user] raises
    [WrappedAttributeError] with the same message, and the facade is left as
    it was, the user still unset. *)
Theorem attribute_error_in_authenticator_is_wrapped
    (self : Request) (passed rest : list Authenticator) (a : Authenticator)
    (msg : string) :
  _user self = None ->
  authenticators self = (passed ++ a :: rest)%list ->
  Forall (fun b => authenticate b (_request self) = Ok None) passed ->
  authenticate a (_request self) = Raise (AttributeError msg) ->
  is_APIException (AttributeError msg) = false ->
  user self
  = Out (Raise (WrappedAttributeError msg)) self
      (CallAuthenticate <$> (passed ++ [a])%list).
Proof.
  intros Hn Hl Hpassed Ha He. unfold user. rewrite Hn. simpl.
  unfold wrap_attributeerrors, bind.
  rewrite (_authenticate_other_exception _ _ _ _ _ Hl Hpassed Ha He).
  reflexivity.
Qed.

(** X18. An [AttributeError] raised by a parser's decode step reaches the
    caller of [data] as [WrappedAttributeError] with the same message, after
    the data caches were reset to the empty defaults. *)
Theorem attribute_error_in_parser_is_wrapped
    (self self1 : Request) (stream_ : value) (parser : Parser)
    (msg : string) :
  _data self = Empty -> _full_data self = Empty ->
  stream self = Out (Ok stream_) self1 [] ->
  is_None stream_ = false ->
  select_parser (negotiator self) (_request self) (parsers self)
    = Some parser ->
  parse parser stream_ (content_type self) (context_for self)
    = Raise (AttributeError msg) ->
  let empty := empty_QueryDict (HttpRequest._encoding (_request self)) in
  data self
  = Out (Raise (WrappedAttributeError msg))
      (set_full_data (Loaded empty)
         (set_files (Loaded (MultiValueDict []))
            (set_data (Loaded empty) self1)))
      [CallSelectParser (parsers self);
       CallParse parser stream_ (content_type self)].
Proof.
  intros Hd Hf E Hv Hsel Hparse empty.
  rewrite (data_of_parse _ Hf Hd), (_parse_of_some_stream _ _ _ E Hv).
  rewrite Hsel, Hparse. reflexivity.
Qed.

(** X19. With no authenticator configured and no forced marker on the
    wrapped request, a facade fresh from [__init__] resolves [user] to the
    configured anonymous identity, or [None], without calling anything; the
    successful authenticator is [None] and auth is the configured default
    token, or [None]. *)
Theorem anonymous_without_authenticators
    (request : HttpRequest.t) (parsers_ : option (list Parser))
    (authenticators_ : option (list Authenticator)) :
  is_None (HttpRequest._force_auth_user request) = true ->
  is_None (HttpRequest._force_auth_token request) = true ->
  default [] authenticators_ = [] ->
  let self := __init__ request parsers_ authenticators_ in
  exists self',
    user self = Out (Ok unauthenticated_user) self' []
    /\ successful_authenticator self' = Out (Ok None) self' []
    /\ auth self' = Out (Ok unauthenticated_token) self' [].
Proof.
  intros Hu Ht Hnone self.
  assert (Hl : authenticators self = []).
  { unfold self, __init__. simpl. rewrite Hu, Ht. exact Hnone. }
  assert (Hall : Forall (fun b => authenticate b (_request self) = Ok None)
                   (authenticators self)) by (rewrite Hl; constructor).
  destruct (_authenticate_all_pass self Hall)
    as (self' & E & Ha & Hus & Hau & _).
  rewrite Hl in E. exists self'.
  unfold user, auth, successful_authenticator, wrap_attributeerrors, bind.
  simpl. rewrite E, Ha, Hus, Hau. simpl. auto.
Qed.

(** X20. [data] after a body-read conflict, on a facade with nothing cached
    whose wrapped request holds a parsed form [(post, files)]. If some parser
    declares a form media type, [data] is that form (the fields, or a copy
    updated with the files when there are files) and the wrapped request
    keeps its parsed form. If no parser does and the request declares a form
    media type, [data] is an empty [QueryDict] and the wrapped request's
    parsed form is replaced by the empty defaults. *)
Theorem data_after_body_read_conflict
    (self self1 : Request) (post files : value) :
  _data self = Empty -> _full_data self = Empty ->
  stream self = Out (Raise RawPostDataException) self1 [] ->
  HttpRequest._post_files (_request self) = Some (post, files) ->
  declares_form_media_type self = true ->
  exists self',
    data self
    = Out (Ok (if _supports_form_parsing self
               then if truthy files then copy_update post files else post
               else empty_QueryDict (HttpRequest._encoding (_request self))))
        self' []
    /\ HttpRequest._post_files (_request self')
       = Some (if _supports_form_parsing self
               then (post, files)
               else (empty_QueryDict (HttpRequest._encoding (_request self)),
                     MultiValueDict [])).
Proof.
  intros Hd Hf E Hpost Hform.
  destruct (_parse_of_failed_stream _ _ E) as [_ Hp].
  rewrite Hpost in Hp. rewrite (data_of_parse _ Hf Hd), Hp.
  unfold declares_form_media_type in Hform.
  apply andb_true_iff in Hform. destruct Hform as [Hne Hform].
  destruct (_supports_form_parsing self).
  - rewrite Hform. destruct (truthy files); eexists; split; reflexivity.
  - rewrite _parse_stream_None, Hne, Hform. simpl.
    eexists; split; reflexivity.
Qed.

End Facade.

(** ** The facade on the concrete host *)

Local Abbreviation init := (__init__ Host.DEFAULT_CHARSET Host.api_settings).
Local Abbreviation the_stream := (stream Host.int).
Local Abbreviation the__parse :=
  (_parse Host.int Host.parse_header_parameters Host.DEFAULT_CHARSET).
Local Abbreviation the__load_data_and_files :=
  (_load_data_and_files Host.int Host.parse_header_parameters
     Host.DEFAULT_CHARSET Host.copy_update).
Local Abbreviation the_data :=
  (data Host.int Host.parse_header_parameters Host.DEFAULT_CHARSET
     Host.copy_update).
Local Abbreviation the__authenticate :=
  (_authenticate Host.api_settings Host.is_APIException).

(** C2, as stated, fails. A multipart request whose body Django's own form
    parsing already drained (the parsed form is cached on the wrapped request
    and the payload was not buffered), with only a JSON parser configured:
    the body read fails with [RawPostDataException], no parser declares a
    form media type, and yet [_parse] does not let the error through: it
    returns the empty defaults. *)
Lemma drained_form_without_form_parser_does_not_raise :
  let self :=
    init (Host.drained
            [("CONTENT_TYPE", "multipart/form-data; boundary=x");
             ("CONTENT_LENGTH", "120")]
            (QueryDict [("a", ["1"])] "utf-8") (MultiValueDict []))
         (Some [Host.JSONParser]) None in
  the_stream self = Out (Raise RawPostDataException) self []
  /\ is_Some (HttpRequest._post_files (_request self))
  /\ _supports_form_parsing self = false
  /\ the__parse self
     = Out (Ok (QueryDict [] "utf-8", MultiValueDict [])) self []
  /\ returned (the__parse self) <> Raise RawPostDataException.
Proof.
  repeat split; try reflexivity.
  - eexists. reflexivity.
  - discriminate.
Qed.

Lemma body_read_conflict_outcomes_witness :
  let post := QueryDict [("a", ["1"])] "utf-8" in
  let self :=
    init (Host.drained
            [("CONTENT_TYPE", "application/x-www-form-urlencoded");
             ("CONTENT_LENGTH", "3")]
            post (MultiValueDict []))
         (Some [Host.FormParser]) None in
  the__parse self = Out (Ok (post, MultiValueDict [])) self [].
Proof.
  intros post self.
  exact (body_read_conflict_outcomes Host.int Host.parse_header_parameters
           Host.DEFAULT_CHARSET self self eq_refl).
Defined.

Lemma decode_failure_leaves_empty_defaults_witness :
  let self :=
    init (Host.request [("CONTENT_TYPE", "application/json");
                        ("CONTENT_LENGTH", "6")] "[1, 2,")
         (Some [Host.BrokenParser]) None in
  let self2 :=
    set_full_data (Loaded (QueryDict [] "utf-8"))
      (set_files (Loaded (MultiValueDict []))
         (set_data (Loaded (QueryDict [] "utf-8"))
            (set_stream (Loaded TheRequest) self))) in
  the__parse self
    = Out (Raise (ParseError "Malformed request.")) self2
        [CallSelectParser [Host.BrokenParser];
         CallParse Host.BrokenParser TheRequest "application/json"]
  /\ the_data self2 = Out (Ok (QueryDict [] "utf-8")) self2 [].
Proof.
  intros self self2.
  exact (decode_failure_leaves_empty_defaults Host.int
           Host.parse_header_parameters Host.DEFAULT_CHARSET Host.copy_update
           self (set_stream (Loaded TheRequest) self) TheRequest
           Host.BrokenParser (ParseError "Malformed request.")
           eq_refl eq_refl eq_refl eq_refl).
Defined.

Lemma api_exception_marks_unauthenticated_witness :
  let self :=
    init (Host.request [] "") None
         (Some [Host.SessionAuthentication; Host.FailingAuthentication;
                Host.TokenAuthentication]) in
  exists self',
    the__authenticate self
      = Out (Raise (APIException "Incorrect authentication credentials."))
          self'
          [CallAuthenticate Host.SessionAuthentication;
           CallAuthenticate Host.FailingAuthentication]
    /\ _authenticator self' = Some None
    /\ _user self' = Some Host.AnonymousUser
    /\ _auth self' = Some None_.
Proof.
  intros self.
  exact (api_exception_marks_unauthenticated Host.api_settings
           Host.is_APIException self
           [Host.SessionAuthentication] [Host.TokenAuthentication]
           Host.FailingAuthentication
           (APIException "Incorrect authentication credentials.")
           eq_refl
           (List.Forall_cons _ Host.SessionAuthentication _ eq_refl
              (List.Forall_nil _))
           eq_refl eq_refl).
Defined.


Lemma empty_stream_gives_typed_empty_data_witness :
  let self :=
    init (Host.request
            [("CONTENT_TYPE", "multipart/form-data; boundary=x");
             ("CONTENT_LENGTH", "0")] "")
         (Some [Host.JSONParser]) None in
  let self1 := set_stream (Loaded None_) self in
  the__parse self
    = Out (Ok (QueryDict [] "utf-8", MultiValueDict [])) self1 []
  /\ exists self', the_data self = Out (Ok (QueryDict [] "utf-8")) self' []
       /\ _data self' = Loaded (QueryDict [] "utf-8")
       /\ _files self' = Loaded (MultiValueDict [])
       /\ _full_data self' = Loaded (QueryDict [] "utf-8").
Proof.
  intros self self1.
  exact (empty_stream_gives_typed_empty_data Host.int
           Host.parse_header_parameters Host.DEFAULT_CHARSET Host.copy_update
           self self1 eq_refl eq_refl eq_refl).
Defined.

(** C8, as stated, fails. A request with a body of five bytes and no content
    type at all, with only a JSON parser configured: no media type is
    declared, and [_parse] raises [UnsupportedMediaType] all the same,
    carrying the empty string. *)
Lemma undeclared_media_type_is_unsupported :
  let self :=
    init (Host.request [("CONTENT_LENGTH", "5")] "hello")
         (Some [Host.JSONParser]) None in
  content_type self = ""
  /\ HttpRequest.META (_request self) !! "CONTENT_TYPE" = None
  /\ HttpRequest.META (_request self) !! "HTTP_CONTENT_TYPE" = None
  /\ the__parse self
     = Out (Raise (UnsupportedMediaType ""))
         (set_stream (Loaded TheRequest) self)
         [CallSelectParser [Host.JSONParser]].
Proof. repeat split; reflexivity. Qed.

Lemma unsupported_media_type_witness :
  let self :=
    init (Host.request [("CONTENT_TYPE", "text/plain");
                        ("CONTENT_LENGTH", "5")] "hello")
         (Some [Host.JSONParser]) None in
  the__parse self
    = Out (Raise (UnsupportedMediaType "text/plain"))
        (set_stream (Loaded TheRequest) self)
        [CallSelectParser [Host.JSONParser]].
Proof.
  intros self.
  exact (proj1 (unsupported_media_type_when_no_parser_selected Host.int
                  Host.parse_header_parameters Host.DEFAULT_CHARSET self)
           TheRequest (set_stream (Loaded TheRequest) self)
           eq_refl eq_refl eq_refl).
Defined.

Lemma parsed_form_is_written_back_witness :
  let self :=
    init (Host.request
            [("CONTENT_TYPE", "application/x-www-form-urlencoded");
             ("CONTENT_LENGTH", "7")] "a=1&b=2")
         (Some [Host.FormParser]) None in
  let self' := final (the__load_data_and_files self) in
  exists d f,
    _data self' = Loaded d /\ _files self' = Loaded f
    /\ HttpRequest._post_files (_request self') = Some (d, f).
Proof.
  intros self self'.
  exact (parsed_form_is_written_back Host.int Host.parse_header_parameters
           Host.DEFAULT_CHARSET Host.copy_update self self'
           (calls (the__load_data_and_files self)) eq_refl eq_refl).
Defined.

Lemma forced_authentication_witness :
  let token := Str "t0k3n" in
  let forced := ForcedAuthentication None_ token in
  let self :=
    init (Host.forced None_ token) None (Some [Host.FailingAuthentication]) in
  authenticators self = [forced]
  /\ (forall rq, authenticate forced rq = Ok (Some (None_, token)))
  /\ exists self',
       checked (user Host.api_settings Host.is_APIException) self
       = Out (Raise ViolationError) self' [CallAuthenticate forced]
       /\ _user self' = Some None_
       /\ _auth self' = Some token
       /\ _authenticator self' = Some (Some forced)
       /\ _authenticate_direct Host.api_settings Host.is_APIException self
          = Out (Raise RuntimeError) (set_authenticator (Some forced) self)
              [CallAuthenticate forced].
Proof.
  intros token forced self.
  exact (forced_authentication_bypasses_authenticators Host.DEFAULT_CHARSET
           Host.api_settings Host.is_APIException
           (Host.forced None_ token) None
           (Some [Host.FailingAuthentication]) (or_intror eq_refl) eq_refl).
Defined.

(** The scenario of a URL-encoded form: content type
    [application/x-www-form-urlencoded], body [a=1&b=2], one form parser.
    [data] is the parsed form, and the wrapped request's form cache holds the
    same mapping afterwards. *)
Example form_scenario :
  let self :=
    init (Host.request
            [("CONTENT_TYPE", "application/x-www-form-urlencoded");
             ("CONTENT_LENGTH", "7")] "a=1&b=2")
         (Some [Host.FormParser]) None in
  let parsed := QueryDict [("a", ["1"]); ("b", ["2"])] "utf-8" in
  returned (the_data self) = Ok parsed
  /\ HttpRequest._post_files (_request (final (the_data self)))
     = Some (parsed, MultiValueDict [])
  /\ calls (the_data self)
     = [CallSelectParser [Host.FormParser];
        CallParse Host.FormParser TheRequest
          "application/x-www-form-urlencoded"].
Proof. repeat split; reflexivity. Qed.

(** ** Further runs on the concrete host *)

Local Abbreviation the_user := (user Host.api_settings Host.is_APIException).
Local Abbreviation the_auth := (auth Host.api_settings Host.is_APIException).
Local Abbreviation the_successful_authenticator :=
  (successful_authenticator Host.api_settings Host.is_APIException).
Local Abbreviation the_POST :=
  (POST Host.int Host.parse_header_parameters Host.DEFAULT_CHARSET
     Host.copy_update).
Local Abbreviation the_FILES :=
  (FILES Host.int Host.parse_header_parameters Host.DEFAULT_CHARSET
     Host.copy_update).

Lemma data_is_cached_witness :
  let self := init (Host.request [] "") (Some [Host.JSONParser]) None in
  let self' :=
    set_full_data (Loaded (Dict []))
      (set_files (Loaded (MultiValueDict []))
         (set_data (Loaded (Dict [])) (set_stream (Loaded None_) self))) in
  the_data self = Out (Ok (Dict [])) self' []
  /\ the_data self' = Out (Ok (Dict [])) self' [].
Proof.
  intros self self'.
  split; [reflexivity|].
  exact (data_is_cached Host.int Host.parse_header_parameters
           Host.DEFAULT_CHARSET Host.copy_update self self' (Dict []) []
           eq_refl).
Defined.

Lemma first_successful_authenticator_wins_witness :
  let self :=
    init (Host.request [("HTTP_AUTHORIZATION", "Bearer abc")] "") None
         (Some [Host.SessionAuthentication; Host.TokenAuthentication;
                Host.FailingAuthentication]) in
  exists self',
    checked the_user self
      = Out (Ok Host.alice) self'
          [CallAuthenticate Host.SessionAuthentication;
           CallAuthenticate Host.TokenAuthentication]
    /\ _authenticator self' = Some (Some Host.TokenAuthentication)
    /\ _user self' = Some Host.alice
    /\ _auth self' = Some (Str "Bearer abc")
    /\ HttpRequest.user (_request self') = Some Host.alice
    /\ HttpRequest.auth (_request self') = Some (Str "Bearer abc").
Proof.
  intros self.
  exact (first_successful_authenticator_wins Host.api_settings
           Host.is_APIException self [Host.SessionAuthentication]
           [Host.FailingAuthentication] Host.TokenAuthentication
           Host.alice (Str "Bearer abc") eq_refl eq_refl eq_refl
           (List.Forall_cons _ Host.SessionAuthentication _ eq_refl
              (List.Forall_nil _))
           eq_refl).
Defined.

Lemma _authenticate_on_its_own_witness :
  let self :=
    init (Host.request [("HTTP_AUTHORIZATION", "Bearer abc")] "") None
         (Some [Host.SessionAuthentication; Host.TokenAuthentication]) in
  let self' := set_authenticator (Some Host.TokenAuthentication) self in
  _authenticate_direct Host.api_settings Host.is_APIException self
  = Out (Raise RuntimeError) self'
      [CallAuthenticate Host.SessionAuthentication;
       CallAuthenticate Host.TokenAuthentication]
  /\ inv_authenticator self' = false.
Proof.
  intros self self'.
  exact (_authenticate_on_its_own_stops_at_the_setter Host.api_settings
           Host.is_APIException self [Host.SessionAuthentication] []
           Host.TokenAuthentication Host.alice (Str "Bearer abc")
           eq_refl eq_refl eq_refl
           (List.Forall_cons _ Host.SessionAuthentication _ eq_refl
              (List.Forall_nil _))
           eq_refl).
Defined.

Lemma no_authenticator_succeeds_witness :
  let self :=
    init (Host.request [] "") None
         (Some [Host.SessionAuthentication; Host.TokenAuthentication]) in
  exists self',
    the__authenticate self
      = Out (Ok tt) self'
          [CallAuthenticate Host.SessionAuthentication;
           CallAuthenticate Host.TokenAuthentication]
    /\ _authenticator self' = Some None
    /\ _user self' = Some Host.AnonymousUser
    /\ _auth self' = Some None_
    /\ HttpRequest.user (_request self') = Some Host.AnonymousUser
    /\ HttpRequest.auth (_request self') = Some None_.
Proof.
  intros self.
  exact (no_authenticator_succeeds Host.api_settings Host.is_APIException
           self
           (List.Forall_cons _ Host.SessionAuthentication _ eq_refl
              (List.Forall_cons _ Host.TokenAuthentication _ eq_refl
                 (List.Forall_nil _)))).
Defined.

Lemma other_exception_witness :
  let crashing :=
    Configured "Crashing" (fun _ => Raise (OtherException "KeyError")) in
  let self :=
    init (Host.request [] "") None
         (Some [Host.SessionAuthentication; crashing;
                Host.TokenAuthentication]) in
  the__authenticate self
  = Out (Raise (OtherException "KeyError")) self
      [CallAuthenticate Host.SessionAuthentication;
       CallAuthenticate crashing].
Proof.
  intros crashing self.
  exact (other_exception_leaves_facade_unmarked Host.api_settings
           Host.is_APIException self [Host.SessionAuthentication]
           [Host.TokenAuthentication] crashing (OtherException "KeyError")
           eq_refl
           (List.Forall_cons _ Host.SessionAuthentication _ eq_refl
              (List.Forall_nil _))
           eq_refl eq_refl).
Defined.

Lemma truthy_users_keep_invariant_witness :
  let self :=
    init (Host.request [("HTTP_AUTHORIZATION", "Bearer abc")] "") None
         (Some [Host.TokenAuthentication]) in
  inv_authenticator (final (checked the_user self)) = true.
Proof.
  intros self.
  apply (truthy_users_keep_invariant Host.api_settings Host.is_APIException
           self eq_refl).
  apply List.Forall_cons; [|apply List.Forall_nil].
  intros u t H. vm_compute in H. injection H as <- _. reflexivity.
Defined.

Lemma user_setter_then_user_witness :
  let self :=
    final (the_user
             (init (Host.request [("HTTP_AUTHORIZATION", "Bearer abc")] "")
                   None (Some [Host.TokenAuthentication]))) in
  let self1 := final (user_setter None_ self) in
  _authenticator self = Some (Some Host.TokenAuthentication)
  /\ _user self1 = Some None_
  /\ HttpRequest.user (_request self1) = Some None_
  /\ checked (user_setter None_) self
     = Out (Raise ViolationError) self1 [].
Proof.
  intros self self1.
  destruct (user_setter_then_user Host.api_settings Host.is_APIException
              self None_ eq_refl) as (Hu & Hr & _ & _ & Hc).
  split; [reflexivity|].
  split; [exact Hu|]. split; [exact Hr|exact Hc].
Defined.

Lemma identity_is_resolved_once_witness :
  let self :=
    init (Host.request [("HTTP_AUTHORIZATION", "Bearer abc")] "") None
         (Some [Host.TokenAuthentication]) in
  let self' := final (the_user self) in
  the_user self' = Out (Ok Host.alice) self' []
  /\ (exists t, the_auth self' = Out (Ok t) self' [])
  /\ (exists a, the_successful_authenticator self' = Out (Ok a) self' []).
Proof.
  intros self self'.
  exact (identity_is_resolved_once Host.api_settings Host.is_APIException
           self self' Host.alice (calls (the_user self)) eq_refl eq_refl).
Defined.

Lemma auth_read_replaces_user_witness :
  let self :=
    init (Host.request [] "") None (Some [Host.SessionAuthentication]) in
  let self1 := final (user_setter Host.alice self) in
  exists self2,
    _user self1 = Some Host.alice
    /\ the_auth self1
       = Out (Ok None_) self2 [CallAuthenticate Host.SessionAuthentication]
    /\ _user self2 = Some Host.AnonymousUser
    /\ HttpRequest.user (_request self2) = Some Host.AnonymousUser.
Proof.
  intros self self1.
  exact (auth_read_replaces_user_set_by_hand Host.api_settings
           Host.is_APIException self Host.alice eq_refl
           (List.Forall_cons _ Host.SessionAuthentication _ eq_refl
              (List.Forall_nil _))).
Defined.

Lemma decoded_data_and_files_witness :
  let self :=
    init (Host.request [("CONTENT_TYPE", "application/json");
                        ("CONTENT_LENGTH", "3")] "[1]")
         (Some [Host.JSONParser]) None in
  exists self',
    the_data self
    = Out (Ok (Str "[1]")) self'
        [CallSelectParser [Host.JSONParser];
         CallParse Host.JSONParser TheRequest "application/json"]
    /\ _data self' = Loaded (Str "[1]")
    /\ _full_data self' = Loaded (Str "[1]")
    /\ _files self' = Loaded (MultiValueDict [])
    /\ the_FILES self' = Out (Ok (MultiValueDict [])) self' [].
Proof.
  intros self.
  exact (decoded_data_and_files Host.int Host.parse_header_parameters
           Host.DEFAULT_CHARSET Host.copy_update self
           (set_stream (Loaded TheRequest) self) TheRequest Host.JSONParser
           (RawData (Str "[1]")) eq_refl eq_refl eq_refl eq_refl eq_refl
           eq_refl eq_refl).
Defined.

Lemma POST_exposes_form_data_only_witness :
  let self := init (Host.request [] "") (Some [Host.JSONParser]) None in
  let self' :=
    set_full_data (Loaded (Dict []))
      (set_files (Loaded (MultiValueDict []))
         (set_data (Loaded (Dict [])) (set_stream (Loaded None_) self))) in
  let v := QueryDict [] "utf-8" in
  _hasattr (_data self') = true
  /\ (is_form_media_type Host.parse_header_parameters (content_type self)
        = true ->
      _data self' = Loaded v)
  /\ (is_form_media_type Host.parse_header_parameters (content_type self)
        = false ->
      v = empty_QueryDict Host.DEFAULT_CHARSET
            (HttpRequest._encoding (_request self))).
Proof.
  intros self self' v.
  exact (POST_exposes_form_data_only Host.int Host.parse_header_parameters
           Host.DEFAULT_CHARSET Host.copy_update self self' v [] eq_refl).
Defined.

Lemma unsupported_media_type_is_not_cached_witness :
  let self :=
    init (Host.request [("CONTENT_TYPE", "text/plain");
                        ("CONTENT_LENGTH", "5")] "hello")
         (Some [Host.JSONParser]) None in
  let self' := set_stream (Loaded TheRequest) self in
  _data self' = Empty /\ _full_data self' = Empty
  /\ the_data self'
     = Out (Raise (UnsupportedMediaType "text/plain")) self'
         [CallSelectParser [Host.JSONParser]].
Proof.
  intros self self'.
  exact (unsupported_media_type_is_not_cached Host.int
           Host.parse_header_parameters Host.DEFAULT_CHARSET
           Host.copy_update self self' "text/plain"
           [CallSelectParser [Host.JSONParser]] eq_refl eq_refl).
Defined.

Lemma _load_data_and_files_contracts_witness :
  let self := init (Host.request [] "") (Some [Host.JSONParser]) None in
  let self' := final (the__load_data_and_files self) in
  post__load_data_and_files self' = true /\ inv_data self' = true.
Proof.
  intros self self'.
  exact (proj1 (_load_data_and_files_contracts Host.int
                  Host.parse_header_parameters Host.DEFAULT_CHARSET
                  Host.copy_update self eq_refl) eq_refl).
Defined.

Lemma attribute_error_in_authenticator_witness :
  let buggy :=
    Configured "Buggy" (fun _ =>
      Raise (AttributeError "'NoneType' object has no attribute 'id'")) in
  let self := init (Host.request [] "") None (Some [buggy]) in
  the_user self
  = Out (Raise (WrappedAttributeError
                  "'NoneType' object has no attribute 'id'"))
      self [CallAuthenticate buggy].
Proof.
  intros buggy self.
  exact (attribute_error_in_authenticator_is_wrapped Host.api_settings
           Host.is_APIException self [] [] buggy
           "'NoneType' object has no attribute 'id'"
           eq_refl eq_refl (List.Forall_nil _) eq_refl eq_refl).
Defined.

Lemma attribute_error_in_parser_witness :
  let buggy :=
    {| parser_name := "BuggyParser";
       media_type := "application/json";
       parse := fun _ _ _ =>
         Raise (AttributeError "'str' object has no attribute 'read'") |} in
  let self :=
    init (Host.request [("CONTENT_TYPE", "application/json");
                        ("CONTENT_LENGTH", "3")] "[1]")
         (Some [buggy]) None in
  the_data self
  = Out (Raise (WrappedAttributeError
                  "'str' object has no attribute 'read'"))
      (set_full_data (Loaded (QueryDict [] "utf-8"))
         (set_files (Loaded (MultiValueDict []))
            (set_data (Loaded (QueryDict [] "utf-8"))
               (set_stream (Loaded TheRequest) self))))
      [CallSelectParser [buggy];
       CallParse buggy TheRequest "application/json"].
Proof.
  intros buggy self.
  exact (attribute_error_in_parser_is_wrapped Host.int
           Host.parse_header_parameters Host.DEFAULT_CHARSET
           Host.copy_update self (set_stream (Loaded TheRequest) self)
           TheRequest buggy "'str' object has no attribute 'read'"
           eq_refl eq_refl eq_refl eq_refl eq_refl eq_refl).
Defined.

Lemma anonymous_without_authenticators_witness :
  let self := init (Host.request [] "") None None in
  exists self',
    the_user self = Out (Ok Host.AnonymousUser) self' []
    /\ the_successful_authenticator self' = Out (Ok None) self' []
    /\ the_auth self' = Out (Ok None_) self' [].
Proof.
  intros self.
  exact (anonymous_without_authenticators Host.DEFAULT_CHARSET
           Host.api_settings Host.is_APIException (Host.request [] "")
           None None eq_refl eq_refl eq_refl).
Defined.

Lemma data_after_body_read_conflict_witness :
  let post := QueryDict [("a", ["1"])] "utf-8" in
  let self :=
    init (Host.drained
            [("CONTENT_TYPE", "multipart/form-data; boundary=x");
             ("CONTENT_LENGTH", "120")]
            post (MultiValueDict []))
         (Some [Host.JSONParser]) None in
  exists self',
    the_data self = Out (Ok (QueryDict [] "utf-8")) self' []
    /\ HttpRequest._post_files (_request self')
       = Some (QueryDict [] "utf-8", MultiValueDict []).
Proof.
  intros post self.
  exact (data_after_body_read_conflict Host.int Host.parse_header_parameters
           Host.DEFAULT_CHARSET Host.copy_update self self post
           (MultiValueDict []) eq_refl eq_refl eq_refl eq_refl eq_refl).
Defined.
